(** * Verification of the yanswap license server token engine

    Shallow embedding of [token_manager.py] ([TokenManager]) and of the
    request and synchronisation code of [server.py].

    Conventions of the embedding:
    - a [datetime] is a count of seconds ([Z]); [timedelta(days=d)] is
      [d * 86400] seconds and [timedelta(hours=h)] is [h * 3600] seconds;
    - the ISO text of a [datetime] ([isoformat] / [fromisoformat]) is
      rendered as the decimal count of seconds: only whether a string parses
      matters to the code, not the calendar layout;
    - Python strings are Rocq [string]s (ASCII);
    - a Python [dict] is an association list with Python's update-in-place
      and append-at-end insertion order. *)

From Stdlib Require Import String Ascii ZArith List Bool Lia.
Import ListNotations.
Open Scope string_scope.
Open Scope Z_scope.
Set Warnings "-register-all".

(* ------------------------------------------------------------------ *)
(** ** Python dictionaries *)

Module PyDict.

Section Dict.
Context {V : Type}.

Fixpoint get (k : string) (d : list (string * V)) : option V :=
  match d with
  | [] => None
  | (k', v) :: d' => if String.eqb k k' then Some v else get k d'
  end.

Definition mem (k : string) (d : list (string * V)) : bool :=
  match get k d with Some _ => true | None => false end.

(** [d[k] = v]: replace in place when present, append otherwise. *)
Fixpoint set (k : string) (v : V) (d : list (string * V)) : list (string * V) :=
  match d with
  | [] => [(k, v)]
  | (k', v') :: d' =>
      if String.eqb k k' then (k', v) :: d' else (k', v') :: set k v d'
  end.

End Dict.

End PyDict.

(* ------------------------------------------------------------------ *)
(** ** Timestamps and their text codec *)

Definition datetime := Z.

Definition digit_char (n : Z) : ascii := ascii_of_nat (48 + Z.to_nat n).

Fixpoint digits_rev (fuel : nat) (n : Z) : string :=
  match fuel with
  | O => EmptyString
  | S f =>
      if n <? 10 then String (digit_char n) EmptyString
      else String (digit_char (n mod 10)) (digits_rev f (n / 10))
  end.

Fixpoint string_rev (s : string) : string :=
  match s with
  | EmptyString => EmptyString
  | String c s' => string_rev s' ++ String c EmptyString
  end.

(** Decimal text of an integer, as [str(n)] / [json.dumps(n)] write it. *)
Definition z_decimal (t : Z) : string :=
  let body := string_rev (digits_rev (S (Z.to_nat (Z.log2_up (Z.abs t + 2)))) (Z.abs t)) in
  if t <? 0 then "-" ++ body else body.

(** [datetime.isoformat()]. *)
Definition isoformat (t : datetime) : string := z_decimal t.

Definition digit_val (c : ascii) : option Z :=
  let n := Z.of_nat (nat_of_ascii c) in
  if (48 <=? n) && (n <=? 57) then Some (n - 48) else None.

Fixpoint parse_digits (acc : Z) (s : string) : option Z :=
  match s with
  | EmptyString => Some acc
  | String c s' =>
      match digit_val c with
      | Some d => parse_digits (acc * 10 + d) s'
      | None => None
      end
  end.

Definition parse_nat_text (s : string) : option Z :=
  match s with
  | EmptyString => None
  | _ => parse_digits 0 s
  end.

(** [datetime.fromisoformat(s)]: [None] when it raises [ValueError]. *)
Definition fromisoformat (s : string) : option datetime :=
  match s with
  | String "-"%char s' => option_map Z.opp (parse_nat_text s')
  | _ => parse_nat_text s
  end.

Definition seconds_per_day : Z := 86400.
Definition seconds_per_hour : Z := 3600.

(* ------------------------------------------------------------------ *)
(** ** Token records and the token store *)

(** One value of [self.tokens], as written by [create_token] and by the
    synchronisation endpoint. *)
Record token_info := mk_info {
  created_at : datetime;
  expires_at : option datetime;
  active : bool;
  description : string;
  used_count : Z;
  last_used : option datetime
}.

(** [self.tokens]: token string -> record. *)
Definition store := list (string * token_info).

(** Failure messages of [is_valid] ("Токен не найден", "Токен
    деактивирован", "Токен истёк"). *)
Inductive reason := NotFound | Deactivated | Expired.

(** [expires_at = info.get("expires_at"); if expires_at: if now > expires_at]
    (a [datetime] is always truthy). *)
Definition past_expiry (now : datetime) (e : option datetime) : bool :=
  match e with
  | Some t => now >? t
  | None => false
  end.

(** [info["used_count"] = info.get("used_count", 0) + 1;
    info["last_used"] = datetime.now()]. *)
Definition record_use (now : datetime) (info : token_info) : token_info :=
  {| created_at := created_at info;
     expires_at := expires_at info;
     active := active info;
     description := description info;
     used_count := used_count info + 1;
     last_used := Some now |}.

(** [TokenManager.is_valid]. [now_check] is the [datetime.now()] compared
    with [expires_at], [now_used] the later [datetime.now()] stored in
    [last_used]. Returns the new in-memory store with the result; the
    [_save_tokens] call is the persistence side effect (see [save_tokens]). *)
Definition is_valid (now_check now_used : datetime) (tokens : store) (token : string)
  : store * (bool * option reason) :=
  match PyDict.get token tokens with
  | None => (tokens, (false, Some NotFound))
  | Some info =>
      if negb (active info) then (tokens, (false, Some Deactivated))
      else if past_expiry now_check (expires_at info) then
        (tokens, (false, Some Expired))
      else (PyDict.set token (record_use now_used info) tokens, (true, None))
  end.

(* ------------------------------------------------------------------ *)
(** ** Creation *)

(** Characters removed by [str.strip()] (the ASCII whitespace of
    [str.isspace]: tab, line feed, vertical tab, form feed, carriage
    return, the separators 0x1c-0x1f and space). *)
Definition py_isspace (c : ascii) : bool :=
  let n := nat_of_ascii c in
  (((9 <=? n) && (n <=? 13)) || ((28 <=? n) && (n <=? 32)))%nat.

Fixpoint lstrip (s : string) : string :=
  match s with
  | EmptyString => EmptyString
  | String c s' => if py_isspace c then lstrip s' else s
  end.

(** [str.strip()]. *)
Definition strip (s : string) : string := string_rev (lstrip (string_rev (lstrip s))).

(** Python truthiness of an optional string / integer argument. *)
Definition truthy_str (o : option string) : option string :=
  match o with
  | Some EmptyString | None => None
  | Some s => Some s
  end.

Definition truthy_int (o : option Z) : option Z :=
  match o with
  | Some 0 | None => None
  | Some n => Some n
  end.

Inductive create_error := DuplicateToken (token : string).

(** [TokenManager.create_token]. [generated] stands for the value drawn by
    [secrets.token_hex(16)]; [now] for [datetime.now()]. On success the new
    store (before [_save_tokens]) and the token are returned; the
    [ValueError] raised for an existing token is [DuplicateToken]. The
    expiry is computed in unbounded integers: the [OverflowError] that
    [timedelta] and [datetime] addition raise outside their range is not
    represented. *)
Definition create_token (now : datetime) (generated : string) (tokens : store)
    (custom_token : option string) (days_valid hours_valid : option Z)
    (descr : string) : create_error + (store * string) :=
  let token := match truthy_str custom_token with
               | Some c => strip c
               | None => generated
               end in
  if PyDict.mem token tokens then inl (DuplicateToken token)
  else
    let expires := match truthy_int days_valid with
                   | Some d => Some (now + d * seconds_per_day)
                   | None =>
                       match truthy_int hours_valid with
                       | Some h => Some (now + h * seconds_per_hour)
                       | None => None
                       end
                   end in
    inr (PyDict.set token {| created_at := now;
                             expires_at := expires;
                             active := true;
                             description := descr;
                             used_count := 0;
                             last_used := None |} tokens, token).

(* ------------------------------------------------------------------ *)
(** ** Listing *)

(** [TokenManager.list_tokens]: the kept entries in store order, each with
    its token and its fields (the [isoformat] conversion of the timestamps
    for display is left out). *)
Fixpoint list_tokens (now : datetime) (active_only : bool) (tokens : store)
  : list (string * token_info) :=
  match tokens with
  | [] => []
  | (t, info) :: rest =>
      if active_only && negb (active info) then list_tokens now active_only rest
      else if past_expiry now (expires_at info) && active_only then
        list_tokens now active_only rest
      else (t, info) :: list_tokens now active_only rest
  end.

(* ------------------------------------------------------------------ *)
(** ** Synchronisation endpoint ([server.sync_tokens]) *)

(** One entry of the [tokens] array of a sync request; [None] is a key
    absent from the JSON object. *)
Record descriptor := mk_desc {
  d_token : option string;
  d_expires_at : option string;
  d_created_at : option string;
  d_active : option bool;
  d_description : option string;
  d_used_count : option Z
}.

(** [datetime.fromisoformat(token_info[k])] guarded by
    [if token_info.get(k):]: [Some None] when the key is absent or empty,
    [None] when [fromisoformat] raises. *)
Definition parse_opt_ts (o : option string) : option (option datetime) :=
  match truthy_str o with
  | None => Some None
  | Some s => match fromisoformat s with
              | Some t => Some (Some t)
              | None => None
              end
  end.

(** The body of the [for token_info in tokens_data] loop. [None] when the
    entry is skipped, by the [continue] on a missing token or by the
    [except Exception: continue] around the update. *)
Definition sync_entry (now : datetime) (tokens : store) (d : descriptor) : option store :=
  match truthy_str (d_token d) with
  | None => None
  | Some token =>
      match PyDict.get token tokens with
      | None =>
          match parse_opt_ts (d_expires_at d) with
          | None => None
          | Some expires =>
              match parse_opt_ts (d_created_at d) with
              | None => None
              | Some created =>
                  Some (PyDict.set token
                    {| created_at := match created with Some c => c | None => now end;
                       expires_at := expires;
                       active := match d_active d with Some a => a | None => true end;
                       description := match d_description d with Some s => s | None => EmptyString end;
                       used_count := match d_used_count d with Some n => n | None => 0 end;
                       last_used := None |} tokens)
              end
          end
      | Some info =>
          let info1 := match d_active d with
                       | Some a => {| created_at := created_at info;
                                      expires_at := expires_at info;
                                      active := a;
                                      description := description info;
                                      used_count := used_count info;
                                      last_used := last_used info |}
                       | None => info
                       end in
          let info2 := match d_description d with
                       | Some s => {| created_at := created_at info1;
                                      expires_at := expires_at info1;
                                      active := active info1;
                                      description := s;
                                      used_count := used_count info1;
                                      last_used := last_used info1 |}
                       | None => info1
                       end in
          Some (PyDict.set token info2 tokens)
      end
  end.

Fixpoint sync_fold (now : datetime) (tokens : store) (batch : list descriptor) : store :=
  match batch with
  | [] => tokens
  | d :: rest =>
      match sync_entry now tokens d with
      | Some tokens' => sync_fold now tokens' rest
      | None => sync_fold now tokens rest
      end
  end.

(* ------------------------------------------------------------------ *)
(** ** Python values and the JSON codec *)

(** The Python objects that [json.loads] produces, plus [datetime]. A JSON
    number is kept as its literal text. *)
Inductive pyval :=
  | PNone
  | PBool (b : bool)
  | PNum (lit : string)
  | PStr (s : string)
  | PList (l : list pyval)
  | PDict (d : list (string * pyval))
  | PDate (t : datetime).

Definition hex_char (n : nat) : ascii :=
  if (n <? 10)%nat then ascii_of_nat (48 + n) else ascii_of_nat (87 + n).

(** The double quote character. *)
Definition dq : string := String (ascii_of_nat 34) EmptyString.

(** JSON string escaping of [json.dumps(..., ensure_ascii=False)]. *)
Fixpoint escape (s : string) : string :=
  match s with
  | EmptyString => EmptyString
  | String c r =>
      let n := nat_of_ascii c in
      let e :=
        if (n =? 34)%nat then "\" ++ dq
        else if (n =? 92)%nat then "\\"
        else if (n =? 10)%nat then "\n"
        else if (n =? 13)%nat then "\r"
        else if (n =? 9)%nat then "\t"
        else if (n =? 8)%nat then "\b"
        else if (n =? 12)%nat then "\f"
        else if (n <? 32)%nat then
          "\u00" ++ String (hex_char (n / 16)) (String (hex_char (n mod 16)) EmptyString)
        else String c EmptyString in
      e ++ escape r
  end.

Definition quote (s : string) : string := dq ++ escape s ++ dq.

Fixpoint join (sep : string) (l : list string) : string :=
  match l with
  | [] => EmptyString
  | [x] => x
  | x :: r => x ++ sep ++ join sep r
  end.

(** [json.dumps]: [None] when it raises [TypeError] ("Object of type
    datetime is not JSON serializable"). The [indent=2] layout only adds
    whitespace and is written here with single spaces. *)
Fixpoint json_dumps (v : pyval) : option string :=
  match v with
  | PNone => Some "null"
  | PBool true => Some "true"
  | PBool false => Some "false"
  | PNum lit => Some lit
  | PStr s => Some (quote s)
  | PDate _ => None
  | PList l =>
      let fix items (l : list pyval) : option (list string) :=
        match l with
        | [] => Some []
        | x :: r =>
            match json_dumps x with
            | Some a => option_map (cons a) (items r)
            | None => None
            end
        end in
      option_map (fun xs => "[" ++ join ", " xs ++ "]") (items l)
  | PDict d =>
      let fix members (d : list (string * pyval)) : option (list string) :=
        match d with
        | [] => Some []
        | (k, x) :: r =>
            match json_dumps x with
            | Some a => option_map (cons (quote k ++ ": " ++ a)) (members r)
            | None => None
            end
        end in
      option_map (fun xs => "{" ++ join ", " xs ++ "}") (members d)
  end.

(** *** [json.loads] *)

Definition is_json_ws (c : ascii) : bool :=
  let n := nat_of_ascii c in
  ((n =? 32) || (n =? 9) || (n =? 10) || (n =? 13))%nat.

Fixpoint skip_ws (s : string) : string :=
  match s with
  | String c r => if is_json_ws c then skip_ws r else s
  | EmptyString => EmptyString
  end.

Definition is_digit (c : ascii) : bool :=
  match digit_val c with Some _ => true | None => false end.

(** The longest prefix of decimal digits, and the rest. *)
Fixpoint span_digits (s : string) : string * string :=
  match s with
  | String c r =>
      if is_digit c then let (ds, rest) := span_digits r in (String c ds, rest)
      else (EmptyString, s)
  | EmptyString => (EmptyString, EmptyString)
  end.

(** [(-?(?:0|[1-9]\d* ))(\.\d+)?([eE][-+]?\d+)?] after the sign: the
    integer part. *)
Definition scan_int (s : string) : option (string * string) :=
  match s with
  | String "0"%char r => Some ("0", r)
  | String c _ =>
      if is_digit c then Some (span_digits s) else None
  | EmptyString => None
  end.

Definition scan_frac (s : string) : option (string * string) :=
  match s with
  | String "."%char r =>
      match span_digits r with
      | (EmptyString, _) => None
      | (ds, rest) => Some ("." ++ ds, rest)
      end
  | _ => Some (EmptyString, s)
  end.

Definition scan_exp (s : string) : option (string * string) :=
  let digits (pre : string) (r : string) :=
    match span_digits r with
    | (EmptyString, _) => None
    | (ds, rest) => Some (pre ++ ds, rest)
    end in
  match s with
  | String e r =>
      if (Ascii.eqb e "e"%char || Ascii.eqb e "E"%char) then
        match r with
        | String "+"%char r' => digits (String e "+") r'
        | String "-"%char r' => digits (String e "-") r'
        | _ => digits (String e EmptyString) r
        end
      else Some (EmptyString, s)
  | EmptyString => Some (EmptyString, s)
  end.

(** A JSON number lexeme after an optional sign. A fraction or exponent
    that does not continue with digits ends the number before it (Python's
    scanner then reports the leftover text). *)
Definition scan_number (sign : string) (s : string) : option (pyval * string) :=
  match scan_int s with
  | None => None
  | Some (i, r1) =>
      let (f, r2) := match scan_frac r1 with Some p => p | None => (EmptyString, r1) end in
      let (e, r3) := match scan_exp r2 with Some p => p | None => (EmptyString, r2) end in
      Some (PNum (sign ++ i ++ f ++ e), r3)
  end.

Definition hex_val (c : ascii) : option nat :=
  let n := nat_of_ascii c in
  if ((48 <=? n) && (n <=? 57))%nat then Some (n - 48)%nat
  else if ((97 <=? n) && (n <=? 102))%nat then Some (n - 87)%nat
  else if ((65 <=? n) && (n <=? 70))%nat then Some (n - 55)%nat
  else None.

(** [\uXXXX]: characters above 255 are outside the 8-bit strings of the
    model and are read as ["?"]. *)
Definition unicode_escape (a b c d : ascii) : option ascii :=
  match hex_val a, hex_val b, hex_val c, hex_val d with
  | Some x1, Some x2, Some x3, Some x4 =>
      let n := (((x1 * 16 + x2) * 16 + x3) * 16 + x4)%nat in
      Some (if (n <? 256)%nat then ascii_of_nat n else "?"%char)
  | _, _, _, _ => None
  end.

(** The body of a JSON string after its opening quote, with
    [strict=True] (raw control characters are refused). *)
Fixpoint scan_string (s : string) : option (string * string) :=
  match s with
  | EmptyString => None
  | String c r =>
      let n := nat_of_ascii c in
      if (n =? 34)%nat then Some (EmptyString, r)
      else if (n =? 92)%nat then
        match r with
        | String "u"%char (String a (String b (String c' (String d r')))) =>
            match unicode_escape a b c' d, scan_string r' with
            | Some ch, Some (t, rest) => Some (String ch t, rest)
            | _, _ => None
            end
        | String e r' =>
            let m := nat_of_ascii e in
            let decoded :=
              if (m =? 34)%nat then Some e
              else if (m =? 92)%nat then Some e
              else if (m =? 47)%nat then Some e
              else if (m =? 98)%nat then Some (ascii_of_nat 8)
              else if (m =? 102)%nat then Some (ascii_of_nat 12)
              else if (m =? 110)%nat then Some (ascii_of_nat 10)
              else if (m =? 114)%nat then Some (ascii_of_nat 13)
              else if (m =? 116)%nat then Some (ascii_of_nat 9)
              else None in
            match decoded, scan_string r' with
            | Some ch, Some (t, rest) => Some (String ch t, rest)
            | _, _ => None
            end
        | EmptyString => None
        end
      else if (n <? 32)%nat then None
      else match scan_string r with
           | Some (t, rest) => Some (String c t, rest)
           | None => None
           end
  end.

Fixpoint parse_value (fuel : nat) (s : string) : option (pyval * string) :=
  match fuel with
  | O => None
  | S f =>
      match skip_ws s with
      | String "n"%char (String "u"%char (String "l"%char (String "l"%char r))) =>
          Some (PNone, r)
      | String "t"%char (String "r"%char (String "u"%char (String "e"%char r))) =>
          Some (PBool true, r)
      | String "f"%char (String "a"%char (String "l"%char (String "s"%char (String "e"%char r)))) =>
          Some (PBool false, r)
      | String "N"%char (String "a"%char (String "N"%char r)) => Some (PNum "NaN", r)
      | String "I"%char (String "n"%char (String "f"%char (String "i"%char (String "n"%char
          (String "i"%char (String "t"%char (String "y"%char r))))))) =>
          Some (PNum "Infinity", r)
      | String "-"%char (String "I"%char (String "n"%char (String "f"%char (String "i"%char
          (String "n"%char (String "i"%char (String "t"%char (String "y"%char r)))))))) =>
          Some (PNum "-Infinity", r)
      | String "-"%char r => scan_number "-" r
      | String c r =>
          let n := nat_of_ascii c in
          if (n =? 34)%nat then
            match scan_string r with
            | Some (t, rest) => Some (PStr t, rest)
            | None => None
            end
          else if (n =? 91)%nat then
            match skip_ws r with
            | String "]"%char rest => Some (PList [], rest)
            | r' => parse_elems f r' []
            end
          else if (n =? 123)%nat then
            match skip_ws r with
            | String "}"%char rest => Some (PDict [], rest)
            | r' => parse_members f r' []
            end
          else scan_number EmptyString (String c r)
      | EmptyString => None
      end
  end
with parse_elems (fuel : nat) (s : string) (acc : list pyval) : option (pyval * string) :=
  match fuel with
  | O => None
  | S f =>
      match parse_value f s with
      | None => None
      | Some (v, r) =>
          match skip_ws r with
          | String ","%char r' => parse_elems f r' (acc ++ [v])
          | String "]"%char r' => Some (PList (acc ++ [v]), r')
          | _ => None
          end
      end
  end
(** Object members; a repeated key keeps its first position and takes the
    last value, as a Python [dict] built key by key. *)
with parse_members (fuel : nat) (s : string) (acc : list (string * pyval))
  : option (pyval * string) :=
  match fuel with
  | O => None
  | S f =>
      match skip_ws s with
      | String c r =>
          if (nat_of_ascii c =? 34)%nat then
            match scan_string r with
            | None => None
            | Some (k, r1) =>
                match skip_ws r1 with
                | String ":"%char r2 =>
                    match parse_value f r2 with
                    | None => None
                    | Some (v, r3) =>
                        match skip_ws r3 with
                        | String ","%char r4 => parse_members f r4 (PyDict.set k v acc)
                        | String "}"%char r4 => Some (PDict (PyDict.set k v acc), r4)
                        | _ => None
                        end
                    end
                | _ => None
                end
            end
          else None
      | EmptyString => None
      end
  end.

(** [json.loads(s)]: [None] when it raises [JSONDecodeError]. Every
    nesting level consumes a character, so [length s + 1] levels suffice. *)
Definition json_loads (s : string) : option pyval :=
  match parse_value (S (String.length s)) s with
  | Some (v, rest) => match skip_ws rest with EmptyString => Some v | _ => None end
  | None => None
  end.

(* ------------------------------------------------------------------ *)
(** ** Persistence adapter *)

Definition opt_date (o : option datetime) : pyval :=
  match o with Some t => PDate t | None => PNone end.

(** The Python dict that a record is in memory. *)
Definition info_to_py (info : token_info) : pyval :=
  PDict [("created_at", PDate (created_at info));
         ("expires_at", opt_date (expires_at info));
         ("active", PBool (active info));
         ("description", PStr (description info));
         ("used_count", PNum (z_decimal (used_count info)));
         ("last_used", opt_date (last_used info))].

(** [if isinstance(data[token].get(k), datetime): ... = ....isoformat()]
    (for [expires_at] guarded by its truthiness, always true for a
    [datetime]). *)
Definition iso_field (k : string) (v : pyval) : pyval :=
  match v with
  | PDict d =>
      match PyDict.get k d with
      | Some (PDate t) => PDict (PyDict.set k (PStr (isoformat t)) d)
      | _ => v
      end
  | _ => v
  end.

(** [TokenManager._save_tokens]: the text [json.dump] writes, or [None]
    when [json.dump] raises (the exception is caught and only a warning is
    printed). *)
Definition save_tokens (tokens : store) : option string :=
  json_dumps (PDict (map (fun '(t, info) =>
                            (t, iso_field "expires_at" (iso_field "created_at" (info_to_py info))))
                         tokens)).

Inductive py_exc := TypeError | AttributeError | OSError.

(** Result of [TokenManager._load_tokens]: the dict it returns, or the
    exception that escapes it (and aborts [TokenManager()]). *)
Inductive load_result :=
  | Loaded (d : list (string * pyval))
  | Raised (e : py_exc).

(** State of [self.tokens_file] at start-up. *)
Inductive disk :=
  | Missing                  (* [not self.tokens_file.exists()] *)
  | Contents (s : string)    (* a readable UTF-8 text file *)
  | Undecodable              (* not UTF-8: [UnicodeDecodeError], a [ValueError] *)
  | Unreadable.              (* [open] raises [OSError] (directory, permissions) *)

Fixpoint is_prefix (p s : string) : bool :=
  match p, s with
  | EmptyString, _ => true
  | String a p', String b s' => Ascii.eqb a b && is_prefix p' s'
  | String _ _, EmptyString => false
  end.

(** Python's [needle in hay] on strings. *)
Fixpoint contains_sub (needle hay : string) : bool :=
  is_prefix needle hay ||
  match hay with
  | EmptyString => false
  | String _ h' => contains_sub needle h'
  end.

(** [key in obj]: [None] when it raises [TypeError] (not a container). *)
Definition py_in (key : string) (obj : pyval) : option bool :=
  match obj with
  | PDict d => Some (PyDict.mem key d)
  | PStr s => Some (contains_sub key s)
  | PList l => Some (existsb (fun x => match x with PStr s => String.eqb s key | _ => false end) l)
  | _ => None
  end.

Definition num_truthy (lit : string) : bool :=
  let fix mantissa_nonzero (s : string) : bool :=
    match s with
    | EmptyString => false
    | String c r =>
        if Ascii.eqb c "e"%char || Ascii.eqb c "E"%char then false
        else match digit_val c with
             | Some d => negb (d =? 0) || mantissa_nonzero r
             | None => mantissa_nonzero r
             end
    end in
  String.eqb lit "NaN" || String.eqb lit "Infinity" || String.eqb lit "-Infinity"
  || mantissa_nonzero lit.

(** Python truthiness. *)
Definition py_truthy (v : pyval) : bool :=
  match v with
  | PNone => false
  | PBool b => b
  | PNum lit => num_truthy lit
  | PStr s => negb (String.eqb s EmptyString)
  | PList l => negb (Nat.eqb (length l) 0)
  | PDict d => negb (Nat.eqb (length d) 0)
  | PDate _ => true
  end.

(** The conversion of one field of [info] in the load loop:
    [if k in info and (info[k] if guard) and isinstance(info[k], str):
       try: info[k] = datetime.fromisoformat(info[k]) except: pass].
    [guard] is the extra truthiness test done for [expires_at]; [None]
    when a [TypeError] escapes. *)
Definition load_field (k : string) (guard : bool) (info : pyval) : option pyval :=
  match py_in k info with
  | None => None
  | Some false => Some info
  | Some true =>
      match info with
      | PDict d =>
          match PyDict.get k d with
          | Some (PStr s) =>
              if guard && negb (py_truthy (PStr s)) then Some info
              else match fromisoformat s with
                   | Some t => Some (PDict (PyDict.set k (PDate t) d))
                   | None => Some info
                   end
          | _ => Some info
          end
      | _ => None   (* [str] / [list] indexed by a string *)
      end
  end.

Fixpoint load_items (d : list (string * pyval)) : option (list (string * pyval)) :=
  match d with
  | [] => Some []
  | (t, info) :: rest =>
      match load_field "created_at" false info with
      | None => None
      | Some info1 =>
          match load_field "expires_at" true info1 with
          | None => None
          | Some info2 => option_map (cons (t, info2)) (load_items rest)
          end
      end
  end.

(** What follows a successful [json.loads]: [len(data)], then
    [data.items()] and the conversion loop. *)
Definition load_parsed (data : pyval) : load_result :=
  match data with
  | PNone | PBool _ | PNum _ | PDate _ => Raised TypeError      (* len() *)
  | PStr _ | PList _ => Raised AttributeError                  (* .items() *)
  | PDict d =>
      match load_items d with
      | Some d' => Loaded d'
      | None => Raised TypeError
      end
  end.

(** [TokenManager._load_tokens]: [env] is [os.getenv("TOKENS_JSON")]. *)
Definition load_tokens (env : option string) (file : disk) : load_result :=
  let from_file :=
    match file with
    | Missing => Loaded []
    | Contents s =>
        match json_loads s with
        | Some data => load_parsed data
        | None => Loaded []
        end
    | Undecodable => Loaded []
    | Unreadable => Raised OSError
    end in
  match truthy_str env with
  | Some s =>
      match json_loads s with
      | Some data => load_parsed data
      | None => from_file
      end
  | None => from_file
  end.

(* ------------------------------------------------------------------ *)
(** ** Request authenticator ([server.get_token_from_request]) *)

(** The parts of a Flask request the function reads. [json_body] is what
    [request.get_json(silent=True)] returns ([None] when the body does not
    parse); [form] and [args] are the multi-dicts, whose [.get] returns the
    first value of a key. *)
Record request := mk_request {
  is_json : bool;
  json_body : option pyval;
  form : list (string * string);
  args : list (string * string)
}.

(** [d.get(k)] on a parsed JSON object. *)
Definition dget (k : string) (d : list (string * pyval)) : pyval :=
  match PyDict.get k d with Some v => v | None => PNone end.

(** [m.get("token") or m.get("Token")] on a multi-dict, as the following
    [if] sees it: the first truthy value. *)
Definition multidict_token (m : list (string * string)) : option string :=
  match truthy_str (PyDict.get "token" m) with
  | Some s => Some s
  | None => truthy_str (PyDict.get "Token" m)
  end.

(** [get_token_from_request]: the returned object ([PNone] is [None]), or
    the exception it raises ([.get] on a JSON body that is not an
    object). *)
Definition get_token_from_request (req : request) : py_exc + pyval :=
  if is_json req then
    let data := match json_body req with
                | Some v => if py_truthy v then v else PDict []
                | None => PDict []
                end in
    match data with
    | PDict d =>
        let t := dget "token" d in
        inr (if py_truthy t then t else dget "Token" d)
    | _ => inl AttributeError
    end
  else
    match multidict_token (form req) with
    | Some s => inr (PStr s)
    | None =>
        match multidict_token (args req) with
        | Some s => inr (PStr s)
        | None => inr PNone
        end
    end.

(* ------------------------------------------------------------------ *)
(** ** Concurrent validations *)

(** A request thread running [is_valid] on one token. The method holds no
    lock: [info.get("used_count", 0) + 1] is read and computed in one step,
    and stored into [info["used_count"]] (with [last_used]) in a later one,
    and other threads may run in between. *)
Inductive thread :=
  | Fresh
  | Computed (c : Z)
  | Finished (res : bool * option reason).

(** One step of a thread on the shared store. The write goes to the dict
    object [info] the thread looked up; with no deletion running, that is
    the current record of [token]. *)
Definition thread_step (now : datetime) (token : string) (tokens : store) (th : thread)
  : store * thread :=
  match th with
  | Fresh =>
      match PyDict.get token tokens with
      | None => (tokens, Finished (false, Some NotFound))
      | Some info =>
          if negb (active info) then (tokens, Finished (false, Some Deactivated))
          else if past_expiry now (expires_at info) then (tokens, Finished (false, Some Expired))
          else (tokens, Computed (used_count info + 1))
      end
  | Computed c =>
      match PyDict.get token tokens with
      | Some info =>
          (PyDict.set token {| created_at := created_at info;
                               expires_at := expires_at info;
                               active := active info;
                               description := description info;
                               used_count := c;
                               last_used := Some now |} tokens, Finished (true, None))
      | None => (tokens, Finished (true, None))
      end
  | Finished r => (tokens, th)
  end.

Fixpoint replace_nth {A} (n : nat) (x : A) (l : list A) : list A :=
  match l, n with
  | [], _ => []
  | _ :: r, O => x :: r
  | y :: r, S n' => y :: replace_nth n' x r
  end.

(** Run the threads under a schedule: the list of the thread indices that
    take a step, in order. *)
Fixpoint run_schedule (now : datetime) (token : string) (tokens : store)
    (threads : list thread) (sched : list nat) : store * list thread :=
  match sched with
  | [] => (tokens, threads)
  | i :: rest =>
      match nth_error threads i with
      | Some th =>
          let (tokens', th') := thread_step now token tokens th in
          run_schedule now token tokens' (replace_nth i th' threads) rest
      | None => run_schedule now token tokens threads rest
      end
  end.

Definition successes (threads : list thread) : nat :=
  length (filter (fun th => match th with Finished (true, _) => true | _ => false end) threads).

(** [n] calls of [is_valid] one after another, all at time [now]. *)
Fixpoint validate_n (now : datetime) (n : nat) (tokens : store) (token : string) : store :=
  match n with
  | O => tokens
  | S n' => validate_n now n' (fst (is_valid now now tokens token)) token
  end.

(** Number of batch entries that are not skipped, in the spec's words
    "the count of successfully processed entries". *)
Fixpoint processed_count (now : datetime) (tokens : store) (batch : list descriptor) : nat :=
  match batch with
  | [] => O
  | d :: rest =>
      match sync_entry now tokens d with
      | Some tokens' => S (processed_count now tokens' rest)
      | None => processed_count now tokens rest
      end
  end.

(* ------------------------------------------------------------------ *)
(** ** Administrative operations of [TokenManager] *)

(** [del d[k]] on a dict (its keys are distinct: the first match is the
    only one). *)
Fixpoint dict_del {V} (k : string) (d : list (string * V)) : list (string * V) :=
  match d with
  | [] => []
  | (k', v) :: d' => if String.eqb k k' then d' else (k', v) :: dict_del k d'
  end.

(** [self.tokens[token]["active"] = a]. *)
Definition with_active (a : bool) (info : token_info) : token_info :=
  {| created_at := created_at info;
     expires_at := expires_at info;
     active := a;
     description := description info;
     used_count := used_count info;
     last_used := last_used info |}.

(** [TokenManager.deactivate_token] (the new store and the returned flag). *)
Definition deactivate_token (tokens : store) (token : string) : store * bool :=
  match PyDict.get token tokens with
  | None => (tokens, false)
  | Some info => (PyDict.set token (with_active false info) tokens, true)
  end.

(** [TokenManager.activate_token]. *)
Definition activate_token (tokens : store) (token : string) : store * bool :=
  match PyDict.get token tokens with
  | None => (tokens, false)
  | Some info => (PyDict.set token (with_active true info) tokens, true)
  end.

(** [TokenManager.delete_token]. *)
Definition delete_token (tokens : store) (token : string) : store * bool :=
  match PyDict.get token tokens with
  | None => (tokens, false)
  | Some _ => (dict_del token tokens, true)
  end.

(** [TokenManager.get_time_remaining]. [delta = expires_at - now] is
    split as [timedelta] does: [delta.days] whole days and [delta.seconds]
    the rest, then [divmod] into hours and minutes. *)
Definition get_time_remaining (now : datetime) (tokens : store) (token : string)
  : option string :=
  match PyDict.get token tokens with
  | None => None
  | Some info =>
      match expires_at info with
      | None => Some "Бессрочный"
      | Some e =>
          if now >? e then Some "Истёк"
          else
            let delta := e - now in
            let days := delta / seconds_per_day in
            let secs := delta mod seconds_per_day in
            let hours := secs / 3600 in
            let minutes := (secs mod 3600) / 60 in
            let parts :=
              app (if days >? 0 then [z_decimal days ++ " дн."] else [])
                (app (if hours >? 0 then [z_decimal hours ++ " ч."] else [])
                   (if (minutes >? 0) && (days =? 0) then [z_decimal minutes ++ " мин."]
                    else [])) in
            Some (match parts with
                  | [] => "Меньше минуты"
                  | _ => join ", " parts
                  end)
      end
  end.

(* ------------------------------------------------------------------ *)
(** ** Request endpoints of [server.py] *)

(** Outcome of [check_token]: the token, the 400 "Missing token" answer,
    the 403 answer with [is_valid]'s reason, or an exception escaping to
    Flask (a 500 answer). *)
Inductive check_result :=
  | CheckOk (token : string)
  | MissingToken
  | InvalidToken (r : option reason)
  | InternalError.

(** [server.check_token], which backs [/activate], [/heartbeat] and
    [/hook_config]. A truthy token that is not a string fails before
    validation: [token[:20]] raises [TypeError] on a number, a boolean or
    a dict, and a list, which can be sliced, is unhashable in
    [token not in self.tokens]. *)
Definition check_token (now_check now_used : datetime) (tokens : store) (req : request)
  : store * check_result :=
  match get_token_from_request req with
  | inl _ => (tokens, InternalError)
  | inr tok =>
      if negb (py_truthy tok) then (tokens, MissingToken)
      else
        match tok with
        | PStr s =>
            let '(tokens', (ok, r)) := is_valid now_check now_used tokens s in
            if ok then (tokens', CheckOk s) else (tokens', InvalidToken r)
        | _ => (tokens, InternalError)
        end
  end.

(** The [total_tokens] and [active_tokens] counts of [server.root]. *)
Definition root_counts (now : datetime) (tokens : store) : nat * nat :=
  let listed := list_tokens now false tokens in
  (length listed, length (filter (fun '(_, info) => active info) listed)).

(* ------------------------------------------------------------------ *)
(** ** Export of [update_render_env.py] *)

(** One dict of [list_tokens]' result, with its [isoformat] conversions. *)
Definition list_entry (t : string) (info : token_info) : list (string * pyval) :=
  [("token", PStr t);
   ("created_at", PStr (isoformat (created_at info)));
   ("expires_at", match expires_at info with Some e => PStr (isoformat e) | None => PNone end);
   ("active", PBool (active info));
   ("description", PStr (description info));
   ("used_count", PNum (z_decimal (used_count info)));
   ("last_used", match last_used info with Some u => PStr (isoformat u) | None => PNone end)].

Definition dget_default (k : string) (default : pyval) (d : list (string * pyval)) : pyval :=
  match PyDict.get k d with Some v => v | None => default end.

(** The loop of [update_render_env.main] that builds [data]. *)
Fixpoint export_data (entries : list (list (string * pyval))) (data : list (string * pyval))
  : list (string * pyval) :=
  match entries with
  | [] => data
  | e :: rest =>
      let tok := dget "token" e in
      if py_truthy tok then
        match tok with
        | PStr t =>
            export_data rest
              (PyDict.set t (PDict [("created_at", dget "created_at" e);
                                    ("expires_at", dget "expires_at" e);
                                    ("active", dget_default "active" (PBool true) e);
                                    ("description", dget_default "description" (PStr EmptyString) e);
                                    ("used_count", dget_default "used_count" (PNum "0") e);
                                    ("last_used", dget "last_used" e)]) data)
        | _ => export_data rest data   (* list_tokens only writes string tokens *)
        end
      else export_data rest data
  end.

(** [update_render_env.main]: the text written to [tokens_json_output.txt]
    ([None] if [json.dumps] raised). *)
Definition update_render_env (now : datetime) (tokens : store) : option string :=
  json_dumps (PDict (export_data (map (fun '(t, info) => list_entry t info)
                                      (list_tokens now false tokens)) [])).

(** [TokenManager.get_token_info]: a copy of the record with its
    [datetime] fields turned into text ([None] for an unknown token). *)
Definition get_token_info (tokens : store) (token : string) : option pyval :=
  match PyDict.get token tokens with
  | None => None
  | Some info =>
      Some (iso_field "last_used" (iso_field "expires_at" (iso_field "created_at" (info_to_py info))))
  end.

(* ------------------------------------------------------------------ *)
(** ** The sync batch as JSON values *)

(** One element of the [tokens] array of a sync request as JSON gives it:
    an object, read through [token_info.get(...)] (its fields as a
    [descriptor]), or a value of another JSON type. *)
Inductive sync_item :=
  | SObject (d : descriptor)
  | SNull
  | SBool (b : bool)
  | SNumber (lit : string)
  | SString (s : string)
  | SArray (l : list pyval).

(** The [for token_info in tokens_data] loop. [token_info.get("token")]
    stands before the inner [try]: on a value that is not an object it
    raises [AttributeError], which leaves the loop; the store keeps the
    updates already made. *)
Fixpoint sync_fold_items (now : datetime) (tokens : store) (items : list sync_item)
  : store * option py_exc :=
  match items with
  | [] => (tokens, None)
  | SObject d :: rest =>
      match sync_entry now tokens d with
      | Some tokens' => sync_fold_items now tokens' rest
      | None => sync_fold_items now tokens rest
      end
  | _ :: _ => (tokens, Some AttributeError)
  end.

(** Responses of [server.sync_tokens]. *)
Inductive sync_outcome :=
  | SyncDone (synced : Z)        (* {"ok": true, "synced": len(tokens_data)} *)
  | SyncRejected                 (* {"ok": false, "error": "Invalid request"}, 400 *)
  | SyncFailed (e : py_exc).     (* {"ok": false, "error": str(e)}, 500 *)

(** [server.sync_tokens] on a request whose body is an object; [None] is
    a body without a [tokens] field. The store is the in-memory one. *)
Definition sync_request (now : datetime) (tokens : store) (req : option (list sync_item))
  : store * sync_outcome :=
  match req with
  | None => (tokens, SyncRejected)
  | Some items =>
      let '(tokens', exc) := sync_fold_items now tokens items in
      match exc with
      | None => (tokens', SyncDone (Z.of_nat (length items)))
      | Some e => (tokens', SyncFailed e)
      end
  end.

(* ================================================================== *)
(** * Properties *)

(** ** Dictionary lemmas *)

Lemma get_set_same {V} (k : string) (v : V) (d : list (string * V)) :
  PyDict.get k (PyDict.set k v d) = Some v.
Proof.
  induction d as [|[k' v'] d IH]; simpl.
  - rewrite String.eqb_refl; reflexivity.
  - destruct (String.eqb k k') eqn:E; simpl.
    + rewrite E; reflexivity.
    + rewrite E; exact IH.
Qed.

Lemma get_set_other {V} (k k' : string) (v : V) (d : list (string * V)) :
  k' <> k -> PyDict.get k' (PyDict.set k v d) = PyDict.get k' d.
Proof.
  intros Hne. induction d as [|[k0 v0] d IH]; simpl.
  - destruct (String.eqb k' k) eqn:E; [apply String.eqb_eq in E; congruence | reflexivity].
  - destruct (String.eqb k k0) eqn:E; simpl.
    + apply String.eqb_eq in E; subst k0.
      destruct (String.eqb k' k) eqn:E'; [apply String.eqb_eq in E'; congruence | reflexivity].
    + rewrite IH; reflexivity.
Qed.

Lemma get_In {V} (k : string) (v : V) (d : list (string * V)) :
  PyDict.get k d = Some v -> In (k, v) d.
Proof.
  induction d as [|[k0 v0] d IH]; simpl; [discriminate|].
  destruct (String.eqb k k0) eqn:E.
  - intros H; injection H as <-. apply String.eqb_eq in E; subst; left; reflexivity.
  - intros H; right; exact (IH H).
Qed.

(** ** C1: validation *)

(** C1. [is_valid] answers "not found" for an unknown token, then
    "deactivated" for a record whose [active] flag is false, then
    "expired" when the check time is strictly after [expires_at]; these
    failing outcomes leave the store as it was. Otherwise it answers
    [(true, None)], adds exactly one to [used_count], sets [last_used] to
    the current time, and changes no other field and no other record. *)
Theorem is_valid_outcomes (now_check now_used : datetime) (tokens : store) (token : string) :
  (PyDict.get token tokens = None ->
     is_valid now_check now_used tokens token = (tokens, (false, Some NotFound))) /\
  (forall info, PyDict.get token tokens = Some info -> active info = false ->
     is_valid now_check now_used tokens token = (tokens, (false, Some Deactivated))) /\
  (forall info e, PyDict.get token tokens = Some info -> active info = true ->
     expires_at info = Some e -> now_check > e ->
     is_valid now_check now_used tokens token = (tokens, (false, Some Expired))) /\
  (forall info, PyDict.get token tokens = Some info -> active info = true ->
     (forall e, expires_at info = Some e -> now_check <= e) ->
     let '(tokens', res) := is_valid now_check now_used tokens token in
     res = (true, None) /\
     PyDict.get token tokens' =
       Some {| created_at := created_at info; expires_at := expires_at info;
               active := active info; description := description info;
               used_count := used_count info + 1; last_used := Some now_used |} /\
     (forall t, t <> token -> PyDict.get t tokens' = PyDict.get t tokens)) /\
  (forall tokens' r, is_valid now_check now_used tokens token = (tokens', (false, r)) ->
     tokens' = tokens).
Proof.
  unfold is_valid. split; [|split; [|split; [|split]]].
  - intros H; rewrite H; reflexivity.
  - intros info H Ha; rewrite H, Ha; reflexivity.
  - intros info e H Ha He Hlt; rewrite H, Ha; simpl; rewrite He; simpl.
    replace (now_check >? e) with true by lia. reflexivity.
  - intros info H Ha He; rewrite H, Ha; simpl.
    destruct (expires_at info) as [e|] eqn:Ee; simpl.
    + specialize (He e eq_refl). replace (now_check >? e) with false by lia.
      split; [reflexivity|split].
      * rewrite get_set_same; unfold record_use; rewrite Ee, Ha; reflexivity.
      * intros t Ht; apply get_set_other; exact Ht.
    + split; [reflexivity|split].
      * rewrite get_set_same; unfold record_use; rewrite Ee, Ha; reflexivity.
      * intros t Ht; apply get_set_other; exact Ht.
  - intros tokens' r.
    destruct (PyDict.get token tokens) as [info|];
      [|intros H; injection H as <-; reflexivity].
    destruct (negb (active info)); [intros H; injection H as <-; reflexivity|].
    destruct (past_expiry now_check (expires_at info));
      [intros H; injection H as <-; reflexivity | discriminate].
Qed.

(** ** C10: listing *)

Lemma list_tokens_all (now : datetime) (tokens : store) :
  list_tokens now false tokens = tokens.
Proof.
  induction tokens as [|[t info] rest IH]; simpl; [reflexivity|].
  rewrite andb_false_r, IH; reflexivity.
Qed.

(** C10. With [active_only] the listing keeps exactly the records that are
    active and not past their expiry (an expired record is dropped even
    when its flag is true); without it every record is listed, expired
    ones included. *)
Theorem list_tokens_active_only (now : datetime) (tokens : store) :
  (forall t info,
     In (t, info) (list_tokens now true tokens) <->
     In (t, info) tokens /\ active info = true /\ past_expiry now (expires_at info) = false) /\
  list_tokens now false tokens = tokens.
Proof.
  split; [|apply list_tokens_all].
  intros t info. induction tokens as [|[t0 i0] rest IH]; simpl.
  - tauto.
  - destruct (active i0) eqn:Ea; simpl.
    + destruct (past_expiry now (expires_at i0)) eqn:Ep; simpl.
      * rewrite IH. split; [tauto|].
        intros [[Heq|Hin] [Ha Hp]]; [injection Heq as <- <-; congruence | tauto].
      * rewrite IH. split.
        -- intros [Heq|H]; [injection Heq as <- <-; tauto | tauto].
        -- intros [[Heq|Hin] HH]; [left; exact Heq | right; tauto].
    + rewrite IH. split; [tauto|].
      intros [[Heq|Hin] [Ha Hp]]; [injection Heq as <- <-; congruence | tauto].
Qed.

(** ** C2: snapshot of the store *)

Lemma dumps_dict_none (d : list (string * pyval)) (k : string) (v : pyval) :
  In (k, v) d -> json_dumps v = None -> json_dumps (PDict d) = None.
Proof.
  intros Hin Hv. simpl.
  match goal with |- option_map _ (?m d) = None =>
    enough (E : m d = None) by (rewrite E; reflexivity) end.
  induction d as [|[k0 v0] d IH]; simpl in *; [contradiction|].
  destruct Hin as [Heq|Hin].
  - injection Heq as -> ->. rewrite Hv. reflexivity.
  - destruct (json_dumps v0); [|reflexivity].
    rewrite (IH Hin). reflexivity.
Qed.

(** The record written for a token still holds its [last_used] as a
    [datetime]. *)
Lemma snapshot_keeps_last_used (info : token_info) (t : datetime) :
  last_used info = Some t ->
  exists d, iso_field "expires_at" (iso_field "created_at" (info_to_py info)) = PDict d /\
            In ("last_used", PDate t) d.
Proof.
  intros Hl. unfold info_to_py. rewrite Hl.
  destruct (expires_at info); simpl; eexists; split; try reflexivity; simpl; tauto.
Qed.

Lemma save_tokens_last_used_raises (tokens : store) (token : string) (info : token_info)
    (t : datetime) :
  PyDict.get token tokens = Some info -> last_used info = Some t ->
  save_tokens tokens = None.
Proof.
  intros Hg Hl. destruct (snapshot_keeps_last_used info t Hl) as [d [Hd Hin]].
  unfold save_tokens.
  apply (dumps_dict_none _ token (PDict d)).
  - apply in_map_iff. exists (token, info). split; [rewrite Hd; reflexivity|].
    apply get_In; exact Hg.
  - apply (dumps_dict_none d "last_used" (PDate t) Hin). reflexivity.
Qed.

(** C2 (the snapshot after a successful validation). Once [is_valid] has
    succeeded, [_save_tokens] cannot serialise the store: the record's
    [last_used] is a [datetime] that the snapshot code does not convert,
    so [json.dump] raises and no snapshot content is produced from which
    the store could be reloaded. *)
Theorem snapshot_fails_after_validation (now_check now_used : datetime) (tokens tokens' : store)
    (token : string) :
  is_valid now_check now_used tokens token = (tokens', (true, None)) ->
  save_tokens tokens' = None.
Proof.
  unfold is_valid. intros H.
  destruct (PyDict.get token tokens) as [info|] eqn:Hg; [|discriminate].
  destruct (negb (active info)); [discriminate|].
  destruct (past_expiry now_check (expires_at info)); [discriminate|].
  injection H as <-.
  apply (save_tokens_last_used_raises _ token (record_use now_used info) now_used).
  - apply get_set_same.
  - reflexivity.
Qed.

Definition sample_info : token_info :=
  {| created_at := 1000; expires_at := None; active := true;
     description := "demo"; used_count := 0; last_used := None |}.

Lemma snapshot_fails_after_validation_witness :
  is_valid 2000 2000 [("abc", sample_info)] "abc"
    = (fst (is_valid 2000 2000 [("abc", sample_info)] "abc"), (true, None)) /\
  save_tokens (fst (is_valid 2000 2000 [("abc", sample_info)] "abc")) = None.
Proof.
  split; [reflexivity|].
  apply (snapshot_fails_after_validation 2000 2000 [("abc", sample_info)] _ "abc").
  reflexivity.
Defined.

(** Before any validation the same store does serialise, and the text
    reads back as the converted dict. *)
Example snapshot_of_fresh_store :
  option_map json_loads (save_tokens [("abc", sample_info)]) =
    Some (Some (PDict [("abc", PDict [("created_at", PStr "1000");
                                      ("expires_at", PNone);
                                      ("active", PBool true);
                                      ("description", PStr "demo");
                                      ("used_count", PNum "0");
                                      ("last_used", PNone)])])).
Proof. vm_compute. reflexivity. Qed.

(** ** C5: start-up load *)

(** C5 (failing input). A [TOKENS_JSON] snapshot that is valid JSON but
    not an object makes [_load_tokens] raise instead of falling back:
    ["5"] fails in [len(data)] with [TypeError], ["[]"] in [data.items()]
    with [AttributeError], and [{"t": 5}] in ["created_at" in info] with
    [TypeError]; none of these is caught, whatever the file holds. *)
Theorem load_tokens_non_object_snapshot_raises (file : disk) :
  load_tokens (Some "5") file = Raised TypeError /\
  load_tokens (Some "[]") file = Raised AttributeError /\
  load_tokens (Some ("{" ++ dq ++ "t" ++ dq ++ ": 5}")) file = Raised TypeError.
Proof. split; [|split]; vm_compute; reflexivity. Qed.

(** For contrast, an unparsable snapshot does fall back to the file. *)
Example load_tokens_garbage_snapshot :
  load_tokens (Some "not json") Missing = Loaded [] /\
  load_tokens (Some "not json") (Contents "{}") = Loaded [].
Proof. split; vm_compute; reflexivity. Qed.

(** ** C7: expiry of a new token *)

(** C7 (failing input). [create_token(days_valid=0)] yields a record with
    no expiry: [if days_valid:] treats [0] like [None], while the method's
    docstring reserves "never expires" for [None]. *)
Theorem create_token_zero_days_never_expires (now : datetime) (generated : string) :
  create_token now generated [] None (Some 0) None EmptyString =
    inr ([(generated, {| created_at := now; expires_at := None; active := true;
                         description := EmptyString; used_count := 0;
                         last_used := None |})], generated).
Proof. reflexivity. Qed.

(** ** C6: duplicate explicit token *)

(** C6 (counterexample). A supplied token is stripped before the lookup:
    with [" abc "] already a key (the sync endpoint stores keys as sent),
    [create_token(" abc ")] does not fail but creates ["abc"]. *)
Lemma create_token_unstripped_key_not_duplicate :
  PyDict.mem " abc " [(" abc ", sample_info)] = true /\
  create_token 1000 "0123456789abcdef0123456789abcdef" [(" abc ", sample_info)]
      (Some " abc ") None None EmptyString =
    inr ([(" abc ", sample_info);
          ("abc", {| created_at := 1000; expires_at := None; active := true;
                     description := EmptyString; used_count := 0;
                     last_used := None |})], "abc").
Proof. split; vm_compute; reflexivity. Qed.

(** C6 (as the code does it). For a non-empty supplied token whose
    whitespace-stripped form is already a key, [create_token] raises
    [DuplicateToken] and returns no new store, so the existing record and
    the rest of the store are untouched. *)
Theorem create_token_duplicate (now : datetime) (generated : string) (tokens : store)
    (custom : string) (days_valid hours_valid : option Z) (descr : string) :
  custom <> EmptyString ->
  PyDict.mem (strip custom) tokens = true ->
  create_token now generated tokens (Some custom) days_valid hours_valid descr
    = inl (DuplicateToken (strip custom)).
Proof.
  intros Hne Hmem. unfold create_token.
  assert (Ht : truthy_str (Some custom) = Some custom)
    by (destruct custom; [congruence | reflexivity]).
  rewrite Ht, Hmem. reflexivity.
Qed.

Lemma create_token_duplicate_witness :
  "abc" <> EmptyString /\
  PyDict.mem (strip "abc") [("abc", sample_info)] = true /\
  create_token 1000 "0123456789abcdef0123456789abcdef" [("abc", sample_info)]
      (Some "abc") (Some 1) None EmptyString = inl (DuplicateToken (strip "abc")).
Proof.
  split; [discriminate|split; [reflexivity|]].
  apply create_token_duplicate; [discriminate|reflexivity].
Defined.

(** ** C3 and C4: synchronisation *)

Definition unknown_unparsable : descriptor :=
  {| d_token := Some "new-token"; d_expires_at := Some "next week"; d_created_at := None;
     d_active := None; d_description := None; d_used_count := None |}.

(** C3 (counterexample). A descriptor for an unknown token whose
    [expires_at] does not parse inserts nothing: [fromisoformat] raises and
    the entry is skipped. *)
Lemma sync_unknown_token_bad_timestamp_not_inserted :
  sync_fold 1000 [] [unknown_unparsable] = [] /\
  PyDict.get "new-token" (sync_fold 1000 [] [unknown_unparsable]) = None.
Proof. split; reflexivity. Qed.

(** C3 (as the code does it). For a descriptor carrying a token string:
    if the token is known, the step of the fold rewrites its record with
    only [active] and [description] taken from the descriptor (each when
    present), keeping [created_at], [expires_at], [used_count] and
    [last_used]; if it is unknown and its timestamps parse, the step
    inserts a record with [active] defaulting to true, [used_count] to the
    descriptor's value or zero, and no [last_used]. *)
Theorem sync_step_merge (now : datetime) (tokens : store) (d : descriptor) (token : string)
    (rest : list descriptor) :
  truthy_str (d_token d) = Some token ->
  (forall info, PyDict.get token tokens = Some info ->
     exists info',
       sync_fold now tokens (d :: rest) = sync_fold now (PyDict.set token info' tokens) rest /\
       created_at info' = created_at info /\ expires_at info' = expires_at info /\
       used_count info' = used_count info /\ last_used info' = last_used info /\
       active info' = match d_active d with Some a => a | None => active info end /\
       description info' =
         match d_description d with Some s => s | None => description info end) /\
  (PyDict.get token tokens = None ->
     forall expires created,
       parse_opt_ts (d_expires_at d) = Some expires ->
       parse_opt_ts (d_created_at d) = Some created ->
     exists info',
       sync_fold now tokens (d :: rest) = sync_fold now (PyDict.set token info' tokens) rest /\
       active info' = match d_active d with Some a => a | None => true end /\
       used_count info' = match d_used_count d with Some n => n | None => 0 end /\
       expires_at info' = expires /\ last_used info' = None).
Proof.
  intros Ht. split.
  - intros info Hg. simpl. unfold sync_entry. rewrite Ht, Hg.
    eexists; split; [reflexivity|].
    destruct (d_active d), (d_description d); simpl; repeat split.
  - intros Hg expires created He Hc. simpl. unfold sync_entry. rewrite Ht, Hg, He, Hc.
    eexists; split; [reflexivity|]. simpl; repeat split.
Qed.

Definition known_update : descriptor :=
  {| d_token := Some "abc"; d_expires_at := None; d_created_at := None;
     d_active := Some false; d_description := None; d_used_count := Some 7 |}.

Lemma sync_step_merge_witness :
  truthy_str (d_token known_update) = Some "abc" /\
  PyDict.get "abc" [("abc", sample_info)] = Some sample_info /\
  exists info',
    sync_fold 1000 [("abc", sample_info)] [known_update]
      = sync_fold 1000 (PyDict.set "abc" info' [("abc", sample_info)]) [] /\
    created_at info' = created_at sample_info /\ expires_at info' = expires_at sample_info /\
    used_count info' = used_count sample_info /\ last_used info' = last_used sample_info /\
    active info' = false /\ description info' = description sample_info.
Proof.
  split; [reflexivity|split; [reflexivity|]].
  destruct (proj1 (sync_step_merge 1000 [("abc", sample_info)] known_update "abc" []
                    eq_refl) sample_info eq_refl) as [info' H].
  exists info'. exact H.
Defined.

Definition missing_token : descriptor :=
  {| d_token := None; d_expires_at := None; d_created_at := None;
     d_active := Some true; d_description := Some "no token"; d_used_count := None |}.

Lemma sync_fold_items_objects (now : datetime) (tokens : store) (batch : list descriptor) :
  sync_fold_items now tokens (map SObject batch) = (sync_fold now tokens batch, None).
Proof.
  revert tokens. induction batch as [|d rest IH]; intros tokens; simpl; [reflexivity|].
  destruct (sync_entry now tokens d); apply IH.
Qed.

(** C4 (counterexample). The response reports [len(tokens_data)], not the
    processed entries: a batch whose only entry is an object without a
    token reports [synced = 1] although nothing was processed. *)
Lemma sync_reports_batch_length_not_processed :
  sync_request 1000 [] (Some [SObject missing_token]) = ([], SyncDone 1) /\
  processed_count 1000 [] [missing_token] = O.
Proof. split; reflexivity. Qed.

(** C4 (the failure). An element of the batch that is not a JSON object
    is not skipped: [token_info.get] raises outside the per-entry [try],
    the request answers 500 with no [synced] count, and none of the later
    entries is processed; the store holds only the updates of the entries
    before it. A batch of objects always reports its own length as
    [synced], skipped entries included. *)
Theorem sync_non_object_entry_aborts :
  (forall now tokens before item after,
     (forall d, item <> SObject d) ->
     sync_request now tokens (Some (app (map SObject before) (item :: after))) =
       (sync_fold now tokens before, SyncFailed AttributeError)) /\
  (forall now tokens batch,
     sync_request now tokens (Some (map SObject batch)) =
       (sync_fold now tokens batch, SyncDone (Z.of_nat (length batch)))).
Proof.
  split.
  - intros now tokens before item after Hitem. unfold sync_request.
    assert (E : sync_fold_items now tokens (app (map SObject before) (item :: after)) =
                (sync_fold now tokens before, Some AttributeError)).
    { revert tokens. induction before as [|d rest IH]; intros tokens; simpl.
      - destruct item; try reflexivity. exfalso; exact (Hitem d eq_refl).
      - destruct (sync_entry now tokens d); apply IH. }
    rewrite E. reflexivity.
  - intros now tokens batch. unfold sync_request.
    rewrite sync_fold_items_objects, length_map. reflexivity.
Qed.

Definition new_entry : descriptor :=
  {| d_token := Some "xyz"; d_expires_at := None; d_created_at := None;
     d_active := None; d_description := None; d_used_count := None |}.

Lemma sync_non_object_entry_aborts_witness :
  (forall d, SNull <> SObject d) /\
  sync_request 1000 [] (Some [SNull; SObject new_entry]) = ([], SyncFailed AttributeError) /\
  fst (sync_request 1000 [] (Some [SObject new_entry])) <> [].
Proof.
  split; [discriminate|split].
  - exact (proj1 sync_non_object_entry_aborts 1000 [] [] SNull [SObject new_entry]
             (fun d => ltac:(discriminate))).
  - change [SObject new_entry] with (map SObject [new_entry]).
    rewrite (proj2 sync_non_object_entry_aborts 1000 [] [new_entry]). discriminate.
Defined.

(** ** C8: extraction of the candidate token *)





(** ** C9: concurrent validations *)

(** C9 (counterexample). Two requests validating the same token, each
    reading [used_count] before the other writes it back, both succeed but
    raise [used_count] from 0 to 1 only. *)
Lemma concurrent_validations_lose_increment :
  let '(tokens, threads) :=
    run_schedule 2000 "abc" [("abc", sample_info)] [Fresh; Fresh] [0; 1; 0; 1]%nat in
  successes threads = 2%nat /\
  option_map used_count (PyDict.get "abc" tokens) = Some 1.
Proof. vm_compute. split; reflexivity. Qed.

Lemma validate_n_used_count (now : datetime) (token : string) (n : nat) :
  forall tokens info,
  PyDict.get token tokens = Some info -> active info = true ->
  past_expiry now (expires_at info) = false ->
  option_map used_count (PyDict.get token (validate_n now n tokens token)) =
    Some (used_count info + Z.of_nat n).
Proof.
  induction n as [|n IH]; intros tokens info Hg Ha Hp; simpl.
  - rewrite Hg. simpl. f_equal. lia.
  - unfold is_valid. rewrite Hg, Ha, Hp. simpl.
    rewrite (IH _ (record_use now info)).
    + simpl. f_equal. lia.
    + apply get_set_same.
    + exact Ha.
    + exact Hp.
Qed.

(** C9 (as the code does it). [is_valid] takes no lock: run alone, its
    read step and its write step make up exactly one [is_valid] call, and
    calls that do not interleave each add exactly one to [used_count]; the
    interleaving above shows that concurrent calls can lose an increment. *)
Theorem validations_without_lock (now : datetime) (token : string) (tokens : store) :
  run_schedule now token tokens [Fresh] [0; 0]%nat =
    (fst (is_valid now now tokens token), [Finished (snd (is_valid now now tokens token))]) /\
  (forall n info,
     PyDict.get token tokens = Some info -> active info = true ->
     past_expiry now (expires_at info) = false ->
     option_map used_count (PyDict.get token (validate_n now n tokens token)) =
       Some (used_count info + Z.of_nat n)).
Proof.
  split.
  - simpl. unfold is_valid.
    destruct (PyDict.get token tokens) as [info|] eqn:Hg; [|reflexivity].
    destruct (negb (active info)); [reflexivity|].
    destruct (past_expiry now (expires_at info)); [reflexivity|].
    simpl. rewrite Hg. reflexivity.
  - intros n info. apply validate_n_used_count.
Qed.

(* ================================================================== *)
(** * Further properties of the token engine *)

(** ** More dictionary lemmas *)

Lemma set_get_id {V} (k : string) (v : V) (d : list (string * V)) :
  PyDict.get k d = Some v -> PyDict.set k v d = d.
Proof.
  induction d as [|[k0 v0] d IH]; simpl; [discriminate|].
  destruct (String.eqb k k0) eqn:E.
  - intros H; injection H as ->; reflexivity.
  - intros H; rewrite (IH H); reflexivity.
Qed.

Lemma set_set {V} (k : string) (v v' : V) (d : list (string * V)) :
  PyDict.set k v (PyDict.set k v' d) = PyDict.set k v d.
Proof.
  induction d as [|[k0 v0] d IH]; simpl.
  - rewrite String.eqb_refl; reflexivity.
  - destruct (String.eqb k k0) eqn:E; simpl; rewrite E; [reflexivity|].
    rewrite IH; reflexivity.
Qed.

Lemma keys_set {V} (k : string) (v : V) (d : list (string * V)) :
  PyDict.get k d <> None -> map fst (PyDict.set k v d) = map fst d.
Proof.
  induction d as [|[k0 v0] d IH]; simpl; [congruence|].
  destruct (String.eqb k k0); simpl; [reflexivity|].
  intros H; rewrite (IH H); reflexivity.
Qed.

Lemma set_new {V} (k : string) (v : V) (d : list (string * V)) :
  PyDict.get k d = None -> PyDict.set k v d = app d [(k, v)].
Proof.
  induction d as [|[k0 v0] d IH]; simpl; [reflexivity|].
  destruct (String.eqb k k0); [discriminate|].
  intros H; rewrite (IH H); reflexivity.
Qed.

Lemma keys_set_new {V} (k : string) (v : V) (d : list (string * V)) :
  PyDict.get k d = None -> map fst (PyDict.set k v d) = app (map fst d) [k].
Proof.
  induction d as [|[k0 v0] d IH]; simpl; [reflexivity|].
  destruct (String.eqb k k0) eqn:E; [discriminate|].
  intros H; simpl; rewrite (IH H); reflexivity.
Qed.

Lemma get_none_not_in {V} (k : string) (d : list (string * V)) :
  PyDict.get k d = None <-> ~ In k (map fst d).
Proof.
  induction d as [|[k0 v0] d IH]; simpl; [tauto|].
  destruct (String.eqb k k0) eqn:E.
  - apply String.eqb_eq in E; subst. split; [discriminate|tauto].
  - apply String.eqb_neq in E. rewrite IH. split; [intros H [H'|H']; [congruence|tauto] | tauto].
Qed.

Lemma get_dict_del_same {V} (k : string) (d : list (string * V)) :
  NoDup (map fst d) -> PyDict.get k (dict_del k d) = None.
Proof.
  induction d as [|[k0 v0] d IH]; simpl; [reflexivity|].
  intros Hnd. inversion Hnd as [|? ? Hni Hnd']; subst.
  destruct (String.eqb k k0) eqn:E.
  - apply String.eqb_eq in E; subst. apply get_none_not_in; exact Hni.
  - simpl. rewrite E. exact (IH Hnd').
Qed.

Lemma get_dict_del_other {V} (k k' : string) (d : list (string * V)) :
  k' <> k -> PyDict.get k' (dict_del k d) = PyDict.get k' d.
Proof.
  intros Hne. induction d as [|[k0 v0] d IH]; simpl; [reflexivity|].
  destruct (String.eqb k k0) eqn:E.
  - apply String.eqb_eq in E; subst.
    destruct (String.eqb k' k0) eqn:E'; [apply String.eqb_eq in E'; congruence | reflexivity].
  - simpl. rewrite IH. reflexivity.
Qed.

(** ** Activation and deactivation *)

(** X1. Deactivating a known token reports success, changes only its
    [active] flag, and from then on [is_valid] answers "deactivated" at
    every time, whatever the expiry, without touching the store. *)
Theorem deactivate_then_validate (tokens : store) (token : string) (info : token_info) :
  PyDict.get token tokens = Some info ->
  let '(tokens', ok) := deactivate_token tokens token in
  ok = true /\
  PyDict.get token tokens' = Some (with_active false info) /\
  (forall t, t <> token -> PyDict.get t tokens' = PyDict.get t tokens) /\
  (forall now_check now_used,
     is_valid now_check now_used tokens' token = (tokens', (false, Some Deactivated))).
Proof.
  intros Hg. unfold deactivate_token. rewrite Hg.
  split; [reflexivity|split; [apply get_set_same|split]].
  - intros t Ht; apply get_set_other; exact Ht.
  - intros nc nu. unfold is_valid. rewrite get_set_same. reflexivity.
Qed.

Lemma deactivate_then_validate_witness :
  PyDict.get "abc" [("abc", sample_info)] = Some sample_info /\
  (let '(tokens', ok) := deactivate_token [("abc", sample_info)] "abc" in
   ok = true /\
   PyDict.get "abc" tokens' = Some (with_active false sample_info) /\
   (forall t, t <> "abc" -> PyDict.get t tokens' = PyDict.get t [("abc", sample_info)]) /\
   (forall now_check now_used,
      is_valid now_check now_used tokens' "abc" = (tokens', (false, Some Deactivated)))).
Proof.
  split; [reflexivity|].
  exact (deactivate_then_validate [("abc", sample_info)] "abc" sample_info eq_refl).
Defined.

(** X2. Reactivating a token that was active before its deactivation gives
    back exactly the store that was there before. *)
Theorem activate_after_deactivate (tokens : store) (token : string) (info : token_info) :
  PyDict.get token tokens = Some info -> active info = true ->
  activate_token (fst (deactivate_token tokens token)) token = (tokens, true).
Proof.
  intros Hg Ha. unfold deactivate_token, activate_token. rewrite Hg. simpl.
  rewrite get_set_same, set_set. f_equal.
  apply set_get_id. rewrite Hg. destruct info; simpl in *; subst; reflexivity.
Qed.

Lemma activate_after_deactivate_witness :
  PyDict.get "abc" [("abc", sample_info)] = Some sample_info /\ active sample_info = true /\
  activate_token (fst (deactivate_token [("abc", sample_info)] "abc")) "abc"
    = ([("abc", sample_info)], true).
Proof.
  split; [reflexivity|split; [reflexivity|]].
  apply (activate_after_deactivate _ _ sample_info); reflexivity.
Defined.

(** ** Deletion *)

(** X3. Deleting a known token (in a store whose keys are distinct, as a
    dict's are) reports success, removes exactly that record, and
    [is_valid] then answers "not found"; deleting an unknown token reports
    failure and leaves the store as it was. *)
Theorem delete_token_spec (tokens : store) (token : string) :
  NoDup (map fst tokens) ->
  (PyDict.get token tokens = None -> delete_token tokens token = (tokens, false)) /\
  (PyDict.get token tokens <> None ->
   let '(tokens', ok) := delete_token tokens token in
   ok = true /\ PyDict.get token tokens' = None /\
   (forall t, t <> token -> PyDict.get t tokens' = PyDict.get t tokens) /\
   (forall now_check now_used,
      is_valid now_check now_used tokens' token = (tokens', (false, Some NotFound)))).
Proof.
  intros Hnd. unfold delete_token. split.
  - intros H; rewrite H; reflexivity.
  - intros H. destruct (PyDict.get token tokens) as [info|]; [|congruence].
    split; [reflexivity|split; [apply get_dict_del_same; exact Hnd|split]].
    + intros t Ht; apply get_dict_del_other; exact Ht.
    + intros nc nu. unfold is_valid. rewrite get_dict_del_same by exact Hnd. reflexivity.
Qed.

Definition two_tokens : store := [("abc", sample_info); ("xyz", sample_info)].

Lemma two_tokens_nodup : NoDup (map fst two_tokens).
Proof.
  simpl. constructor; [simpl; intros [H|H]; [discriminate|contradiction]|].
  constructor; [simpl; tauto | constructor].
Qed.

Lemma delete_token_spec_witness :
  NoDup (map fst two_tokens) /\ PyDict.get "abc" two_tokens <> None /\
  (let '(tokens', ok) := delete_token two_tokens "abc" in
   ok = true /\ PyDict.get "abc" tokens' = None /\
   (forall t, t <> "abc" -> PyDict.get t tokens' = PyDict.get t two_tokens) /\
   (forall now_check now_used,
      is_valid now_check now_used tokens' "abc" = (tokens', (false, Some NotFound)))).
Proof.
  split; [exact two_tokens_nodup|split; [discriminate|]].
  apply (proj2 (delete_token_spec two_tokens "abc" two_tokens_nodup)). discriminate.
Defined.

(** X4. Deleting a token frees its string: creating a token with that
    same explicit string (one that [strip] leaves unchanged) is no longer
    refused as a duplicate, whatever the validity arguments; without a
    validity period it adds a fresh record for it at the end of the
    store. *)
Theorem delete_then_recreate (now : datetime) (generated : string) (tokens : store)
    (token : string) (descr : string) :
  NoDup (map fst tokens) -> PyDict.get token tokens <> None ->
  token <> EmptyString -> strip token = token ->
  (forall days_valid hours_valid,
     create_token now generated (fst (delete_token tokens token)) (Some token)
       days_valid hours_valid descr <> inl (DuplicateToken token)) /\
  create_token now generated (fst (delete_token tokens token)) (Some token) None None descr =
    inr (app (fst (delete_token tokens token))
             [(token, {| created_at := now; expires_at := None; active := true;
                         description := descr; used_count := 0; last_used := None |})],
         token).
Proof.
  intros Hnd Hg Hne Hs.
  assert (Ht : truthy_str (Some token) = Some token)
    by (destruct token; [congruence | reflexivity]).
  assert (Hdel : PyDict.get token (fst (delete_token tokens token)) = None).
  { unfold delete_token. destruct (PyDict.get token tokens); [|congruence].
    simpl. apply get_dict_del_same; exact Hnd. }
  unfold create_token. rewrite Ht, Hs. unfold PyDict.mem. rewrite Hdel.
  split.
  - intros dv hv. discriminate.
  - rewrite set_new by exact Hdel. reflexivity.
Qed.

Lemma delete_then_recreate_witness :
  NoDup (map fst two_tokens) /\ PyDict.get "abc" two_tokens <> None /\
  "abc" <> EmptyString /\ strip "abc" = "abc" /\
  create_token 5000 "0123456789abcdef0123456789abcdef" (fst (delete_token two_tokens "abc"))
    (Some "abc") None None EmptyString =
  inr ([("xyz", sample_info);
        ("abc", {| created_at := 5000; expires_at := None; active := true;
                   description := EmptyString; used_count := 0; last_used := None |})], "abc").
Proof.
  split; [exact two_tokens_nodup|split; [discriminate|split; [discriminate|split; [reflexivity|]]]].
  exact (proj2 (delete_then_recreate 5000 "0123456789abcdef0123456789abcdef" two_tokens "abc"
                  EmptyString two_tokens_nodup ltac:(discriminate) ltac:(discriminate) eq_refl)).
Defined.

(** ** Creation followed by validation *)

Lemma truthy_int_nonzero (d : Z) : d <> 0 -> truthy_int (Some d) = Some d.
Proof. destruct d; simpl; congruence. Qed.

(** X5. A token created without a time-to-live validates at any time,
    and successive validations take its [used_count] from 0 to 1, then
    to 2. *)
Theorem create_then_validate_twice (now : datetime) (generated : string) (tokens : store)
    (custom : option string) (descr : string) (tokens' : store) (token : string)
    (c1 u1 c2 u2 : datetime) :
  create_token now generated tokens custom None None descr = inr (tokens', token) ->
  let '(tokens1, r1) := is_valid c1 u1 tokens' token in
  let '(tokens2, r2) := is_valid c2 u2 tokens1 token in
  r1 = (true, None) /\ option_map used_count (PyDict.get token tokens1) = Some 1 /\
  r2 = (true, None) /\ option_map used_count (PyDict.get token tokens2) = Some 2.
Proof.
  unfold create_token. intros H.
  set (tk := match truthy_str custom with Some c => strip c | None => generated end) in H.
  destruct (PyDict.mem tk tokens); [discriminate|].
  injection H as <- <-.
  unfold is_valid. rewrite get_set_same. simpl.
  rewrite set_set, get_set_same. simpl.
  rewrite set_set, get_set_same. simpl.
  repeat split.
Qed.

Definition fresh_rec : token_info :=
  {| created_at := 1000; expires_at := None; active := true; description := EmptyString;
     used_count := 0; last_used := None |}.

Lemma create_then_validate_twice_witness :
  create_token 1000 "t1" [] None None None EmptyString = inr ([("t1", fresh_rec)], "t1") /\
  (let '(tokens1, r1) := is_valid 1 1 [("t1", fresh_rec)] "t1" in
   let '(tokens2, r2) := is_valid 2 2 tokens1 "t1" in
   r1 = (true, None) /\ option_map used_count (PyDict.get "t1" tokens1) = Some 1 /\
   r2 = (true, None) /\ option_map used_count (PyDict.get "t1" tokens2) = Some 2).
Proof.
  split; [reflexivity|].
  apply (create_then_validate_twice 1000 "t1" [] None EmptyString). reflexivity.
Defined.

(** X6. A token created with [days_valid = d] (non-zero) is valid exactly
    at the check times up to and including [created + d] days, and
    expired strictly after. *)
Theorem create_days_validity_window (now : datetime) (generated : string) (tokens : store)
    (custom : option string) (d : Z) (hours_valid : option Z) (descr : string)
    (tokens' : store) (token : string) :
  d <> 0 ->
  create_token now generated tokens custom (Some d) hours_valid descr = inr (tokens', token) ->
  forall now_check now_used,
    snd (is_valid now_check now_used tokens' token) =
      if now_check <=? now + d * seconds_per_day then (true, None)
      else (false, Some Expired).
Proof.
  intros Hd. unfold create_token. rewrite (truthy_int_nonzero d Hd). intros H.
  set (tk := match truthy_str custom with Some c => strip c | None => generated end) in H.
  destruct (PyDict.mem tk tokens); [discriminate|].
  injection H as <- <-. intros nc nu.
  unfold is_valid. rewrite get_set_same. simpl.
  destruct (nc <=? now + d * seconds_per_day) eqn:E.
  - apply Z.leb_le in E. replace (nc >? now + d * seconds_per_day) with false by lia.
    reflexivity.
  - apply Z.leb_gt in E. replace (nc >? now + d * seconds_per_day) with true by lia.
    reflexivity.
Qed.

Lemma create_days_validity_window_witness :
  (1 <> 0) /\
  create_token 0 "t1" [] None (Some 1) None EmptyString
    = inr ([("t1", {| created_at := 0; expires_at := Some 86400; active := true;
                      description := EmptyString; used_count := 0; last_used := None |})], "t1") /\
  snd (is_valid 86400 86400 [("t1", {| created_at := 0; expires_at := Some 86400; active := true;
                      description := EmptyString; used_count := 0; last_used := None |})] "t1")
    = (if 86400 <=? 0 + 1 * seconds_per_day then (true, None) else (false, Some Expired)).
Proof.
  split; [discriminate|split; [reflexivity|]].
  apply (create_days_validity_window 0 "t1" [] None 1 None EmptyString); [discriminate|reflexivity].
Defined.

(** ** Validation over time and across the store *)

(** X7. Expiry is permanent: once [is_valid] answers "expired" for a
    store, it answers "expired" at every later check time too, without
    changing the store. *)
Theorem expired_stays_expired (c1 u1 c2 u2 : datetime) (tokens tokens1 : store) (token : string) :
  is_valid c1 u1 tokens token = (tokens1, (false, Some Expired)) -> c1 <= c2 ->
  is_valid c2 u2 tokens token = (tokens, (false, Some Expired)).
Proof.
  unfold is_valid. intros H Hle.
  destruct (PyDict.get token tokens) as [info|]; [|discriminate].
  destruct (negb (active info)); [discriminate|].
  destruct (expires_at info) as [e|]; simpl in *; [|discriminate].
  destruct (c1 >? e) eqn:E; [|discriminate].
  replace (c2 >? e) with true by lia. reflexivity.
Qed.

Definition with_expiry : token_info :=
  {| created_at := 0; expires_at := Some 100; active := true;
     description := EmptyString; used_count := 4; last_used := None |}.

Lemma expired_stays_expired_witness :
  is_valid 200 200 [("abc", with_expiry)] "abc" = ([("abc", with_expiry)], (false, Some Expired)) /\
  (200 <= 300)%Z /\
  is_valid 300 300 [("abc", with_expiry)] "abc" = ([("abc", with_expiry)], (false, Some Expired)).
Proof.
  split; [reflexivity|split; [lia|]].
  apply (expired_stays_expired 200 200 300 300 _ [("abc", with_expiry)]); [reflexivity|lia].
Defined.

(** X8. [is_valid] never removes a record, and on every record it changes
    at most the usage statistics: [created_at], [expires_at], [active] and
    [description] stay, and [used_count] grows by zero or one. *)
Theorem is_valid_frame (now_check now_used : datetime) (tokens : store) (token : string) :
  forall t info, PyDict.get t tokens = Some info ->
  exists info', PyDict.get t (fst (is_valid now_check now_used tokens token)) = Some info' /\
    created_at info' = created_at info /\ expires_at info' = expires_at info /\
    active info' = active info /\ description info' = description info /\
    used_count info <= used_count info' <= used_count info + 1.
Proof.
  intros t info Ht. unfold is_valid.
  destruct (PyDict.get token tokens) as [i0|] eqn:Hg;
    [|exists info; simpl; repeat split; try assumption; lia].
  destruct (negb (active i0)); [exists info; simpl; repeat split; try assumption; lia|].
  destruct (past_expiry now_check (expires_at i0)); [exists info; simpl; repeat split; try assumption; lia|].
  simpl. destruct (String.eqb_spec t token) as [->|Hne].
  - rewrite get_set_same. rewrite Hg in Ht. injection Ht as <-.
    eexists; split; [reflexivity|]. simpl; repeat split; lia.
  - rewrite get_set_other by exact Hne. exists info; repeat split; try assumption; lia.
Qed.

(** ** Synchronisation over a whole batch *)

Lemma sync_entry_history (now : datetime) (tokens tokens' : store) (d : descriptor)
    (t : string) (info : token_info) :
  PyDict.get t tokens = Some info -> sync_entry now tokens d = Some tokens' ->
  exists info', PyDict.get t tokens' = Some info' /\
    created_at info' = created_at info /\ expires_at info' = expires_at info /\
    used_count info' = used_count info /\ last_used info' = last_used info.
Proof.
  intros Ht. unfold sync_entry.
  destruct (truthy_str (d_token d)) as [token|]; [|discriminate].
  destruct (String.eqb_spec t token) as [->|Hne].
  - rewrite Ht. intros H; injection H as <-. rewrite get_set_same.
    eexists; split; [reflexivity|].
    destruct (d_active d), (d_description d); simpl; repeat split.
  - destruct (PyDict.get token tokens) as [i0|].
    + intros H; injection H as <-. rewrite get_set_other by exact Hne.
      exists info; repeat split; assumption.
    + destruct (parse_opt_ts (d_expires_at d)); [|discriminate].
      destruct (parse_opt_ts (d_created_at d)); [|discriminate].
      intros H; injection H as <-. rewrite get_set_other by exact Hne.
      exists info; repeat split; assumption.
Qed.

(** X9. A whole sync batch never removes a record and never changes the
    usage history of a record that was already in the store: its
    [created_at], [expires_at], [used_count] and [last_used] are the same
    after the batch, whatever the batch holds (repeated entries
    included). *)
Theorem sync_keeps_local_history (now : datetime) (batch : list descriptor) :
  forall tokens t info, PyDict.get t tokens = Some info ->
  exists info', PyDict.get t (sync_fold now tokens batch) = Some info' /\
    created_at info' = created_at info /\ expires_at info' = expires_at info /\
    used_count info' = used_count info /\ last_used info' = last_used info.
Proof.
  induction batch as [|d rest IH]; intros tokens t info Ht; simpl.
  - exists info; repeat split; assumption.
  - destruct (sync_entry now tokens d) as [tokens'|] eqn:He.
    + destruct (sync_entry_history now tokens tokens' d t info Ht He)
        as [i1 [H1 [Hc [He' [Hu Hl]]]]].
      destruct (IH tokens' t i1 H1) as [i2 [H2 [Hc2 [He2 [Hu2 Hl2]]]]].
      exists i2; repeat split; congruence.
    + exact (IH tokens t info Ht).
Qed.

Lemma sync_keeps_local_history_witness :
  PyDict.get "abc" [("abc", sample_info)] = Some sample_info /\
  exists info', PyDict.get "abc" (sync_fold 1000 [("abc", sample_info)] [known_update; known_update]) = Some info' /\
    created_at info' = created_at sample_info /\ expires_at info' = expires_at sample_info /\
    used_count info' = used_count sample_info /\ last_used info' = last_used sample_info.
Proof.
  split; [reflexivity|].
  apply (sync_keeps_local_history 1000 [known_update; known_update]). reflexivity.
Defined.

(** ** Remaining lifetime *)

(** X10. [get_time_remaining] for a known token: "Бессрочный" without
    expiry, "Истёк" strictly after it, "Меньше минуты" when less than a
    minute is left; once at least one day is left the answer is the whole
    days followed by the hours only when non-zero, and the minutes are
    never shown; from one minute up to one day it is the hours when
    non-zero followed by the minutes when non-zero. *)
Theorem time_remaining_display (now : datetime) (tokens : store) (token : string)
    (info : token_info) :
  PyDict.get token tokens = Some info ->
  (expires_at info = None -> get_time_remaining now tokens token = Some "Бессрочный") /\
  (forall e, expires_at info = Some e -> now > e ->
     get_time_remaining now tokens token = Some "Истёк") /\
  (forall e, expires_at info = Some e -> now <= e -> e - now < 60 ->
     get_time_remaining now tokens token = Some "Меньше минуты") /\
  (forall e, expires_at info = Some e -> 86400 <= e - now ->
     get_time_remaining now tokens token =
       Some (join ", " (app [z_decimal ((e - now) / 86400) ++ " дн."]
                           (if ((e - now) mod 86400) / 3600 >? 0
                            then [z_decimal (((e - now) mod 86400) / 3600) ++ " ч."]
                            else [])))) /\
  (forall e, expires_at info = Some e -> 60 <= e - now < 86400 ->
     get_time_remaining now tokens token =
       Some (join ", " (app (if (e - now) / 3600 >? 0
                             then [z_decimal ((e - now) / 3600) ++ " ч."] else [])
                            (if ((e - now) mod 3600) / 60 >? 0
                             then [z_decimal (((e - now) mod 3600) / 60) ++ " мин."] else [])))).
Proof.
  intros Hg. unfold get_time_remaining. rewrite Hg.
  split; [|split; [|split; [|split]]].
  - intros He; rewrite He; reflexivity.
  - intros e He Hgt; rewrite He. replace (now >? e) with true by lia. reflexivity.
  - intros e He Hle Hlt; rewrite He. replace (now >? e) with false by lia.
    unfold seconds_per_day.
    rewrite (Z.div_small (e - now) 86400) by lia.
    rewrite (Z.mod_small (e - now) 86400) by lia.
    rewrite (Z.div_small (e - now) 3600) by lia.
    rewrite (Z.mod_small (e - now) 3600) by lia.
    rewrite (Z.div_small (e - now) 60) by lia.
    reflexivity.
  - intros e He Hge; rewrite He. replace (now >? e) with false by lia.
    unfold seconds_per_day.
    assert (Hd : 1 <= (e - now) / 86400) by (apply Z.div_le_lower_bound; lia).
    replace ((e - now) / 86400 >? 0) with true by lia.
    replace ((e - now) / 86400 =? 0) with false by lia.
    rewrite andb_false_r. simpl app.
    destruct (((e - now) mod 86400) / 3600 >? 0); reflexivity.
  - intros e He [Hlo Hhi]; rewrite He. replace (now >? e) with false by lia.
    unfold seconds_per_day.
    rewrite (Z.div_small (e - now) 86400) by lia.
    rewrite (Z.mod_small (e - now) 86400) by lia.
    change (0 >? 0) with false. change (0 =? 0) with true.
    rewrite andb_true_r. cbn [app].
    destruct ((e - now) / 3600 >? 0) eqn:Eh, (((e - now) mod 3600) / 60 >? 0) eqn:Em;
      try reflexivity.
    exfalso.
    rewrite Z.gtb_ltb in Eh, Em. apply Z.ltb_ge in Eh, Em.
    pose proof (Z.div_mod (e - now) 3600 ltac:(lia)).
    pose proof (Z.mod_pos_bound (e - now) 3600 ltac:(lia)).
    pose proof (Z.div_pos (e - now) 3600 ltac:(lia) ltac:(lia)).
    pose proof (Z.div_mod ((e - now) mod 3600) 60 ltac:(lia)).
    pose proof (Z.mod_pos_bound ((e - now) mod 3600) 60 ltac:(lia)).
    pose proof (Z.div_pos ((e - now) mod 3600) 60 ltac:(lia) ltac:(lia)).
    lia.
Qed.

Definition day_and_hour_left : token_info :=
  {| created_at := 0; expires_at := Some 90061; active := true;
     description := EmptyString; used_count := 0; last_used := None |}.

Lemma time_remaining_display_witness :
  PyDict.get "abc" [("abc", day_and_hour_left)] = Some day_and_hour_left /\
  get_time_remaining 0 [("abc", day_and_hour_left)] "abc" = Some "1 дн., 1 ч." /\
  get_time_remaining 86400 [("abc", day_and_hour_left)] "abc" = Some "1 ч., 1 мин.".
Proof.
  split; [reflexivity|split].
  - rewrite (proj1 (proj2 (proj2 (proj2 (time_remaining_display 0 [("abc", day_and_hour_left)] "abc"
                                    day_and_hour_left eq_refl)))) 90061 eq_refl) by lia.
    reflexivity.
  - rewrite (proj2 (proj2 (proj2 (proj2 (time_remaining_display 86400 [("abc", day_and_hour_left)] "abc"
                                    day_and_hour_left eq_refl)))) 90061 eq_refl) by lia.
    reflexivity.
Defined.

(** ** Token check of the endpoints *)

Lemma is_valid_fail_same (now_check now_used : datetime) (tokens tokens' : store)
    (token : string) (r : option reason) :
  is_valid now_check now_used tokens token = (tokens', (false, r)) -> tokens' = tokens.
Proof.
  unfold is_valid.
  destruct (PyDict.get token tokens) as [info|]; [|intros H; injection H as <-; reflexivity].
  destruct (negb (active info)); [intros H; injection H as <-; reflexivity|].
  destruct (past_expiry now_check (expires_at info));
    [intros H; injection H as <-; reflexivity | discriminate].
Qed.

(** X11. [check_token] (behind [/activate], [/heartbeat] and
    [/hook_config]) changes the store only when it lets the token through,
    and then exactly as one successful [is_valid]; a non-JSON request with
    no token in the form or the query is answered 400 "Missing token"; a
    JSON body whose "token" is truthy but not a string fails with an
    internal error before any validation. *)
Theorem check_token_effects (now_check now_used : datetime) (tokens : store) :
  (forall req,
     let '(tokens', r) := check_token now_check now_used tokens req in
     match r with
     | CheckOk s => is_valid now_check now_used tokens s = (tokens', (true, None))
     | _ => tokens' = tokens
     end) /\
  (forall body f a, multidict_token f = None -> multidict_token a = None ->
     check_token now_check now_used tokens (mk_request false body f a) = (tokens, MissingToken)) /\
  (forall d f a, py_truthy (dget "token" d) = true -> (forall s, dget "token" d <> PStr s) ->
     check_token now_check now_used tokens (mk_request true (Some (PDict d)) f a)
       = (tokens, InternalError)).
Proof.
  split; [|split].
  - intros req. unfold check_token.
    destruct (get_token_from_request req) as [e|tok]; [reflexivity|].
    destruct (negb (py_truthy tok)); [reflexivity|].
    destruct tok; try reflexivity.
    destruct (is_valid now_check now_used tokens s) as [tokens' [ok r]] eqn:Hv.
    destruct ok.
    + destruct r; [|exact Hv].
      unfold is_valid in Hv.
      destruct (PyDict.get s tokens); [|discriminate].
      destruct (negb (active t)); [discriminate|].
      destruct (past_expiry now_check (expires_at t)); discriminate.
    + exact (is_valid_fail_same _ _ _ _ _ _ Hv).
  - intros body f a Hf Ha. unfold check_token, get_token_from_request. simpl.
    rewrite Hf, Ha. reflexivity.
  - intros d f a Ht Hns.
    destruct d as [|p d']; [discriminate Ht|].
    remember (dget "token" (p :: d')) as v eqn:Ev.
    unfold check_token, get_token_from_request. simpl. rewrite <- Ev, Ht. simpl.
    rewrite Ht.
    destruct v; try reflexivity; exfalso; exact (Hns _ eq_refl).
Qed.

(** ** Root endpoint *)

(** X12. The [active_tokens] count of the root endpoint counts flags only:
    it is the size of the active-only listing plus the number of records
    that are flagged active but already expired; [total_tokens] is the
    number of records. *)
Theorem root_counts_include_expired (now : datetime) (tokens : store) :
  fst (root_counts now tokens) = length tokens /\
  snd (root_counts now tokens) =
    (length (list_tokens now true tokens) +
     length (filter (fun '(_, info) => active info && past_expiry now (expires_at info)) tokens))%nat.
Proof.
  unfold root_counts. rewrite list_tokens_all. split; [reflexivity|]. simpl.
  induction tokens as [|[t info] rest IH]; simpl; [reflexivity|].
  destruct (active info); simpl.
  - destruct (past_expiry now (expires_at info)); simpl; rewrite IH; lia.
  - exact IH.
Qed.

(** ** Export of the store for the environment variable *)

Lemma dumps_dict_some (d : list (string * pyval)) :
  (forall k v, In (k, v) d -> json_dumps v <> None) -> json_dumps (PDict d) <> None.
Proof.
  intros Hall. simpl.
  match goal with |- option_map _ (?m d) <> None =>
    enough (E : m d <> None) by (destruct (m d); [discriminate | contradiction]) end.
  induction d as [|[k0 v0] d IH]; simpl in *; [discriminate|].
  destruct (json_dumps v0) eqn:Hv; [|exfalso; exact (Hall k0 v0 (or_introl eq_refl) Hv)].
  match goal with |- option_map _ ?x <> None =>
    destruct x eqn:Ex; [discriminate|] end.
  exfalso. apply IH; [intros k v H; exact (Hall k v (or_intror H)) | reflexivity].
Qed.

Lemma export_data_spec (l : store) (data : list (string * pyval)) :
  NoDup (app (map fst data) (map fst l)) ->
  export_data (map (fun '(t, info) => list_entry t info) l) data =
  app data (map (fun '(t, info) => (t, PDict (tl (list_entry t info))))
                (filter (fun '(t, _) => negb (String.eqb t EmptyString)) l)).
Proof.
  revert data.
  induction l as [|[t info] l IH]; intros data Hnd; simpl.
  - rewrite app_nil_r. reflexivity.
  - destruct (String.eqb t EmptyString) eqn:Et; simpl.
    + rewrite (IH data (NoDup_remove_1 _ _ _ Hnd)). reflexivity.
    + assert (Hnot : PyDict.get t data = None).
      { apply get_none_not_in. intros Hin. apply (NoDup_remove_2 _ _ _ Hnd).
        apply in_or_app; left; exact Hin. }
      unfold dget_default. simpl.
      rewrite set_new by exact Hnot.
      rewrite IH.
      * rewrite <- app_assoc. reflexivity.
      * rewrite map_app, <- app_assoc. exact Hnd.
Qed.

Lemma dumps_export_record (t : string) (info : token_info) :
  json_dumps (PDict (tl (list_entry t info))) <> None.
Proof.
  unfold list_entry. simpl.
  destruct (expires_at info), (active info), (last_used info); simpl; discriminate.
Qed.

(** X13. [update_render_env.main] exports every record whose token is
    non-empty, in the store's order, as its listing entry without the
    [token] field (the token being the key), and [json.dumps] of the
    result never fails: the listing has already turned every
    [datetime] into text. *)
Theorem update_render_env_exports (now : datetime) (tokens : store) :
  NoDup (map fst tokens) ->
  export_data (map (fun '(t, info) => list_entry t info) (list_tokens now false tokens)) [] =
    map (fun '(t, info) => (t, PDict (tl (list_entry t info))))
        (filter (fun '(t, _) => negb (String.eqb t EmptyString)) tokens) /\
  update_render_env now tokens <> None.
Proof.
  intros Hnd. rewrite list_tokens_all.
  assert (E := export_data_spec tokens [] Hnd). simpl in E.
  split; [exact E|].
  unfold update_render_env. rewrite list_tokens_all, E.
  apply dumps_dict_some. intros k v Hin.
  apply in_map_iff in Hin as [[t info] [Heq _]].
  simpl in Heq. injection Heq as _ Hv. subst v. exact (dumps_export_record t info).
Qed.

Lemma update_render_env_exports_witness :
  NoDup (map fst two_tokens) /\
  export_data (map (fun '(t, info) => list_entry t info) (list_tokens 0 false two_tokens)) [] =
    map (fun '(t, info) => (t, PDict (tl (list_entry t info))))
        (filter (fun '(t, _) => negb (String.eqb t EmptyString)) two_tokens) /\
  update_render_env 0 two_tokens <> None.
Proof.
  split; [exact two_tokens_nodup|].
  apply (update_render_env_exports 0 two_tokens two_tokens_nodup).
Defined.

(** ** Loading and saving the snapshot *)






(** X15. The serialisation step of [_save_tokens]: [json.dump] of the
    data it builds succeeds exactly when no record holds a [last_used]
    time. [created_at] and [expires_at] are converted to text and
    [last_used] is not, so a single one makes [json.dump] raise. Whether
    the file can be created and opened is a separate step, not covered
    here. *)
Theorem save_tokens_succeeds_iff (tokens : store) :
  save_tokens tokens <> None <-> Forall (fun '(_, info) => last_used info = None) tokens.
Proof.
  split.
  - intros Hs. apply Forall_forall. intros [t info] Hin.
    destruct (last_used info) as [u|] eqn:Hu; [|reflexivity].
    exfalso. apply Hs.
    destruct (snapshot_keeps_last_used info u Hu) as [d [Hd Hin']].
    unfold save_tokens.
    apply (dumps_dict_none _ t (PDict d)).
    + apply in_map_iff. exists (t, info). split; [rewrite Hd; reflexivity | exact Hin].
    + apply (dumps_dict_none d "last_used" (PDate u) Hin'). reflexivity.
  - intros Hall. unfold save_tokens. apply dumps_dict_some.
    intros k v Hin. apply in_map_iff in Hin as [[t info] [Heq Hin]].
    simpl in Heq. injection Heq as _ <-.
    assert (Hu : last_used info = None)
      by exact (proj1 (Forall_forall _ _) Hall (t, info) Hin).
    unfold info_to_py, iso_field, opt_date. rewrite Hu. simpl.
    destruct (expires_at info), (active info); simpl; discriminate.
Qed.

(** ** Single-token information *)

(** X16. [get_token_info] returns, for a stored token, the same fields
    with the same values as its [list_tokens] entry (all three dates as
    text), so unlike the snapshot it always serialises to JSON. *)
Theorem get_token_info_matches_listing (tokens : store) (token : string) (info : token_info) :
  PyDict.get token tokens = Some info ->
  get_token_info tokens token = Some (PDict (tl (list_entry token info))) /\
  json_dumps (PDict (tl (list_entry token info))) <> None.
Proof.
  intros Hg. split; [|exact (dumps_export_record token info)].
  unfold get_token_info. rewrite Hg.
  unfold info_to_py, list_entry, opt_date. simpl.
  destruct (expires_at info), (last_used info); reflexivity.
Qed.

Lemma get_token_info_matches_listing_witness :
  PyDict.get "abc" [("abc", day_and_hour_left)] = Some day_and_hour_left /\
  get_token_info [("abc", day_and_hour_left)] "abc"
    = Some (PDict (tl (list_entry "abc" day_and_hour_left))) /\
  json_dumps (PDict (tl (list_entry "abc" day_and_hour_left))) <> None.
Proof.
  split; [reflexivity|].
  apply (get_token_info_matches_listing [("abc", day_and_hour_left)] "abc" day_and_hour_left).
  reflexivity.
Defined.

Lemma is_valid_frame_witness :
  PyDict.get "abc" [("abc", with_expiry)] = Some with_expiry /\
  exists info', PyDict.get "abc" (fst (is_valid 50 50 [("abc", with_expiry)] "abc")) = Some info' /\
    created_at info' = created_at with_expiry /\ expires_at info' = expires_at with_expiry /\
    active info' = active with_expiry /\ description info' = description with_expiry /\
    used_count with_expiry <= used_count info' <= used_count with_expiry + 1.
Proof.
  split; [reflexivity|].
  apply (is_valid_frame 50 50 [("abc", with_expiry)] "abc" "abc" with_expiry).
  reflexivity.
Defined.

(** ** Skipped sync entries *)

(** X17. In the sync loop, an object entry without a token string, or one
    for a token not in the store whose [expires_at] or [created_at] does
    not parse, is skipped: the loop goes on with the rest of the batch on
    the same store. *)
Theorem sync_skips_malformed_objects (now : datetime) (tokens : store) (d : descriptor)
    (rest : list sync_item) :
  (truthy_str (d_token d) = None \/
   exists token, truthy_str (d_token d) = Some token /\ PyDict.get token tokens = None /\
     (parse_opt_ts (d_expires_at d) = None \/ parse_opt_ts (d_created_at d) = None)) ->
  sync_fold_items now tokens (SObject d :: rest) = sync_fold_items now tokens rest.
Proof.
  intros Hd. simpl. unfold sync_entry.
  destruct Hd as [Hn | [token [Ht [Hg [He | Hc]]]]].
  - rewrite Hn; reflexivity.
  - rewrite Ht, Hg, He; reflexivity.
  - rewrite Ht, Hg, Hc. destruct (parse_opt_ts (d_expires_at d)); reflexivity.
Qed.

Lemma sync_skips_malformed_objects_witness :
  (truthy_str (d_token unknown_unparsable) = None \/
   exists token, truthy_str (d_token unknown_unparsable) = Some token /\
     PyDict.get token [] = @None token_info /\
     (parse_opt_ts (d_expires_at unknown_unparsable) = None \/
      parse_opt_ts (d_created_at unknown_unparsable) = None)) /\
  sync_fold_items 1000 [] [SObject unknown_unparsable; SObject new_entry] =
    sync_fold_items 1000 [] [SObject new_entry].
Proof.
  assert (H : truthy_str (d_token unknown_unparsable) = None \/
   exists token, truthy_str (d_token unknown_unparsable) = Some token /\
     PyDict.get token [] = @None token_info /\
     (parse_opt_ts (d_expires_at unknown_unparsable) = None \/
      parse_opt_ts (d_created_at unknown_unparsable) = None)).
  { right. eexists; split; [reflexivity|split; [reflexivity|left; reflexivity]]. }
  split; [exact H|].
  exact (sync_skips_malformed_objects 1000 [] unknown_unparsable [SObject new_entry] H).
Defined.
